(** * XRA1405 SPI GPIO expander driver: a shallow embedding

    The driver of [src/XRA1405.cpp] and [src/XRA1405.hpp] is embedded as
    state-passing functions over a [World] that holds the SPI bus, the
    chip-select lines and the register files of the attached expanders.
    Integers of the C++ code are [Z] with the wrap-around of [uint8_t]
    written out ([u8]); bit operations are those of [Z]. *)

From Stdlib Require Import ZArith Lia List Bool.
From stdpp Require Import base decidable option gmap.
Import ListNotations.

Local Open Scope Z_scope.

(** ** Bytes *)

(** Conversion to [uint8_t]. *)
Definition u8 (x : Z) : Z := x mod 256.

(** ** Constants of [XRA1405.hpp] *)

Definition XRA1405_SPI_CLOCK : Z := 26000000.

Inductive BitOrder := LSBFIRST | MSBFIRST.
Inductive DataMode := SPI_MODE0 | SPI_MODE1 | SPI_MODE2 | SPI_MODE3.

Definition SPI_ORDER : BitOrder := MSBFIRST.
Definition SPI_MODE : DataMode := SPI_MODE0.

(** [B01111111] and [B10000000] of Arduino's binary constants. *)
Definition XRA1405_WRITE : Z := 0x7F.
Definition XRA1405_READ : Z := 0x80.

(** Modelled from the spec: the logic levels of the host's [Arduino.h],
    which is not part of the repository; a register bit equal to 1 is
    "logic high", and [digital_read] returns [(value >> bit) & 1]. *)
Definition LOW : Z := 0.
Definition HIGH : Z := 1.

Inductive XRA1405_Register :=
| GSR1 | GSR2 | OCR1 | OCR2 | PIR1 | PIR2 | GCR1 | GCR2 | PUR1 | PUR2
| IER1 | IER2 | TSCR1 | TSCR2 | ISR1 | ISR2 | REIR1 | REIR2
| FEIR1 | FEIR2 | IFR1 | IFR2.

(** The address of a register as the device numbers it (the left operand
    of [<< 1] in the enumeration). *)
Definition reg_addr (r : XRA1405_Register) : Z :=
  match r with
  | GSR1 => 0x00 | GSR2 => 0x01 | OCR1 => 0x02 | OCR2 => 0x03
  | PIR1 => 0x04 | PIR2 => 0x05 | GCR1 => 0x06 | GCR2 => 0x07
  | PUR1 => 0x08 | PUR2 => 0x09 | IER1 => 0x0A | IER2 => 0x0B
  | TSCR1 => 0x0C | TSCR2 => 0x0D | ISR1 => 0x0E | ISR2 => 0x0F
  | REIR1 => 0x10 | REIR2 => 0x11 | FEIR1 => 0x12 | FEIR2 => 0x13
  | IFR1 => 0x14 | IFR2 => 0x15
  end.

(** The value of an enumerator: the address, already shifted into bits
    6:1 of the command byte. *)
Definition reg_value (r : XRA1405_Register) : Z := Z.shiftl (reg_addr r) 1.

Inductive XRA1405_InterruptType :=
| INTERRUPT_DISABLE | INTERRUPT_RISING | INTERRUPT_FALLING | INTERRUPT_BOTH.

#[global] Instance XRA1405_Register_eq_dec : EqDecision XRA1405_Register.
Proof. solve_decision. Defined.

#[global] Instance XRA1405_InterruptType_eq_dec :
  EqDecision XRA1405_InterruptType.
Proof. solve_decision. Defined.

(** ** Command bytes *)

Definition setReadMode (commandByte : Z) : Z :=
  u8 (Z.lor commandByte XRA1405_READ).

Definition setWriteMode (commandByte : Z) : Z :=
  u8 (Z.land commandByte XRA1405_WRITE).

(** ** The bus and the devices on it *)

Record SPISettings := mkSPISettings {
  set_clock : Z;
  set_order : BitOrder;
  set_mode : DataMode
}.

Inductive Event :=
| EvPin (pin level : Z)
| EvSpiBegin (sck miso mosi ss : Z)
| EvSetFrequency (freq : Z)
| EvBeginTransaction (s : SPISettings)
| EvTransfer (clock : Z) (mosi miso : Z)
| EvEndTransaction.

(** The register latches of all expanders, keyed by the chip-select line
    of the device and the register value (address in bits 6:1). *)
Abbreviation RegFile := (gmap (Z * Z) Z) (only parsing).

Record World := mkWorld {
  bus_pins : option (Z * Z * Z * Z);
  bus_clock : Z;
  bus_order : BitOrder;
  bus_mode : DataMode;
  selected : option Z;
  latched : option Z;
  regs : RegFile;
  sense : RegFile -> Z -> Z -> Z;
  trace : list Event
}.

(** The content of a latch; a latch that was never written holds 0. *)
Definition latch (r : RegFile) (cs a : Z) : Z := default 0 (r !! (cs, a)).

(** The command byte without its direction flag and its reserved bit. *)
Definition cmd_register (cmd : Z) : Z := Z.land cmd 0x7E.

Definition is_state_register (a : Z) : bool :=
  (a =? reg_value GSR1) || (a =? reg_value GSR2).

(** What the device on line [cs] answers to a read of register [a]: the
    state registers report the levels the device samples at its pins
    ([sense]); every other register reports its latch. *)
Definition dev_read (w : World) (cs a : Z) : Z :=
  if is_state_register a then u8 (sense w (regs w) cs a)
  else u8 (latch (regs w) cs a).

Definition log (e : Event) (w : World) : World :=
  mkWorld (bus_pins w) (bus_clock w) (bus_order w) (bus_mode w)
          (selected w) (latched w) (regs w) (sense w) (trace w ++ [e]).

Definition set_frame (sel lat : option Z) (w : World) : World :=
  mkWorld (bus_pins w) (bus_clock w) (bus_order w) (bus_mode w)
          sel lat (regs w) (sense w) (trace w).

Definition set_regs (r : RegFile) (w : World) : World :=
  mkWorld (bus_pins w) (bus_clock w) (bus_order w) (bus_mode w)
          (selected w) (latched w) r (sense w) (trace w).

Definition set_bus (p : option (Z * Z * Z * Z)) (c : Z) (o : BitOrder)
    (m : DataMode) (w : World) : World :=
  mkWorld p c o m (selected w) (latched w) (regs w) (sense w) (trace w).

(** ** The state monad of the driver *)

Definition M (A : Type) : Type := World -> A * World.

Definition ret {A} (a : A) : M A := fun w => (a, w).

Definition bind {A B} (m : M A) (f : A -> M B) : M B :=
  fun w => let (a, w') := m w in f a w'.

Notation "x <- m ;; k" := (bind m (fun x => k))
  (at level 100, m at next level, right associativity).
Notation "m ;;; k" := (bind m (fun _ => k))
  (at level 100, right associativity).

Definition exec {A} (m : M A) (w : World) : World := snd (m w).
Definition eval {A} (m : M A) (w : World) : A := fst (m w).

(** ** The host primitives the driver calls *)

(** [digitalWrite(pin, level)] of the host: a chip-select line driven low
    selects its device and opens a frame; driven high it closes it. *)
Definition digitalWrite (pin level : Z) : M unit := fun w =>
  let w1 :=
    if level =? LOW then set_frame (Some pin) None w
    else if bool_decide (selected w = Some pin) then set_frame None None w
    else w in
  (tt, log (EvPin pin level) w1).

Definition SPI_begin (sck miso mosi ss : Z) : M unit := fun w =>
  (tt, log (EvSpiBegin sck miso mosi ss)
         (set_bus (Some (sck, miso, mosi, ss)) (bus_clock w) (bus_order w)
                  (bus_mode w) w)).

Definition SPI_setFrequency (freq : Z) : M unit := fun w =>
  (tt, log (EvSetFrequency freq)
         (set_bus (bus_pins w) freq (bus_order w) (bus_mode w) w)).

Definition SPI_beginTransaction (s : SPISettings) : M unit := fun w =>
  (tt, log (EvBeginTransaction s)
         (set_bus (bus_pins w) (set_clock s) (set_order s) (set_mode s) w)).

Definition SPI_endTransaction : M unit := fun w =>
  (tt, log EvEndTransaction w).

(** [SPI.transfer(data)]: the first byte of a frame is latched by the
    selected device as its command; the second byte is answered with the
    addressed register (bit 7 of the command set) or stored in it. *)
Definition SPI_transfer (data : Z) : M Z := fun w =>
  let out := u8 data in
  match selected w with
  | None => (0, log (EvTransfer (bus_clock w) out 0) w)
  | Some cs =>
      match latched w with
      | None =>
          (0, log (EvTransfer (bus_clock w) out 0)
                (set_frame (Some cs) (Some out) w))
      | Some cmd =>
          if Z.testbit cmd 7 then
            let v := dev_read w cs (cmd_register cmd) in
            (v, log (EvTransfer (bus_clock w) out v)
                  (set_frame (Some cs) None w))
          else
            (0, log (EvTransfer (bus_clock w) out 0)
                  (set_frame (Some cs) None
                     (set_regs (<[(cs, cmd_register cmd) := out]> (regs w)) w)))
      end
  end.

(** ** The transport of [XRA1405.cpp] *)

Definition SPI_Read (chipSelectPin commandByte : Z) : M Z :=
  digitalWrite chipSelectPin LOW ;;;
  SPI_beginTransaction (mkSPISettings XRA1405_SPI_CLOCK SPI_ORDER SPI_MODE) ;;;
  SPI_transfer commandByte ;;;
  readValue <- SPI_transfer 0x00 ;;
  SPI_endTransaction ;;;
  digitalWrite chipSelectPin HIGH ;;;
  ret readValue.

Definition SPI_Write (chipSelectPin commandByte dataByte : Z) : M unit :=
  digitalWrite chipSelectPin LOW ;;;
  SPI_beginTransaction (mkSPISettings XRA1405_SPI_CLOCK SPI_ORDER SPI_MODE) ;;;
  SPI_transfer commandByte ;;;
  SPI_transfer dataByte ;;;
  SPI_endTransaction ;;;
  digitalWrite chipSelectPin HIGH.

(** ** The public operations of [XRA1405.cpp] *)

(** The pin modes of the host's [Arduino.h]; their numeric values differ
    between Arduino cores and are not part of the repository, so the
    driver is embedded over any choice of them. *)
Class PinModes := mkPinModes {
  OUTPUT : Z;
  INPUT : Z;
  INPUT_PULLUP : Z
}.

(** The values of the ESP32 core, whose four-argument [SPI.begin] the
    driver calls. *)
Definition esp32_modes : PinModes := mkPinModes 0x03 0x01 0x05.

Definition XRA1405_begin (sck miso mosi freq : Z) : M unit :=
  let freq :=
    if (freq <? 24000000) || (freq >? 26000000) then XRA1405_SPI_CLOCK
    else freq in
  SPI_begin sck miso mosi (-1) ;;;
  SPI_setFrequency freq.

Definition XRA1405_pinMode `{PinModes} (chipSelectPin pin mode : Z) : M unit :=
  let gpioConfigRegisterCommand := reg_value (if pin <? 8 then GCR1 else GCR2) in
  let pin := u8 (pin mod 8) in
  gpioConfigRegisterValue <-
    SPI_Read chipSelectPin (setReadMode gpioConfigRegisterCommand) ;;
  let newConfigValue :=
    u8 (if mode =? OUTPUT
        then Z.land gpioConfigRegisterValue (Z.lnot (Z.shiftl 1 pin))
        else Z.lor gpioConfigRegisterValue (Z.shiftl 1 pin)) in
  SPI_Write chipSelectPin (setWriteMode gpioConfigRegisterCommand)
            newConfigValue ;;;
  if mode =? INPUT_PULLUP then
    let pullUpResistorRegisterCommand :=
      reg_value (if pin <? 8 then PUR1 else PUR2) in
    pullUpResistorRegisterValue <-
      SPI_Read chipSelectPin (setReadMode pullUpResistorRegisterCommand) ;;
    SPI_Write chipSelectPin (setWriteMode pullUpResistorRegisterCommand)
              (Z.lor pullUpResistorRegisterValue (Z.shiftl 1 pin))
  else ret tt.

Definition XRA1405_digitalWrite (chipSelectPin pin value : Z) : M unit :=
  let outputControlRegisterCommand :=
    reg_value (if pin <? 8 then OCR1 else OCR2) in
  let pin := u8 (pin mod 8) in
  outputControlRegisterValue <-
    SPI_Read chipSelectPin (setReadMode outputControlRegisterCommand) ;;
  let newOutputControlValue :=
    u8 (if value =? HIGH
        then Z.lor outputControlRegisterValue (Z.shiftl 1 pin)
        else Z.land outputControlRegisterValue (Z.lnot (Z.shiftl 1 pin))) in
  SPI_Write chipSelectPin (setWriteMode outputControlRegisterCommand)
            newOutputControlValue.

Definition XRA1405_digitalRead (chipSelectPin pin : Z) : M Z :=
  let gpioStateRegisterCommand :=
    reg_value (if pin <? 8 then GSR1 else GSR2) in
  let pin := u8 (pin mod 8) in
  gpioStateRegisterValue <-
    SPI_Read chipSelectPin (setReadMode gpioStateRegisterCommand) ;;
  ret (u8 (Z.land (Z.shiftr gpioStateRegisterValue pin) 0x01)).

Definition XRA1405_setPullUp (chipSelectPin pin : Z) (enabled : bool) : M unit :=
  let pullUpResistorRegisterCommand :=
    reg_value (if pin <? 8 then PUR1 else PUR2) in
  let pin := u8 (pin mod 8) in
  pullUpResistorRegisterValue <-
    SPI_Read chipSelectPin (setReadMode pullUpResistorRegisterCommand) ;;
  let newPullUpValue :=
    u8 (if enabled
        then Z.lor pullUpResistorRegisterValue (Z.shiftl 1 pin)
        else Z.land pullUpResistorRegisterValue (Z.lnot (Z.shiftl 1 pin))) in
  SPI_Write chipSelectPin (setWriteMode pullUpResistorRegisterCommand)
            newPullUpValue.

Definition configureEdgeInterrupt (chipSelectPin pin : Z)
    (interruptType : XRA1405_InterruptType) : M unit :=
  let risingEdgeRegisterCommand :=
    reg_value (if pin <? 8 then REIR1 else REIR2) in
  let fallingEdgeRegisterCommand :=
    reg_value (if pin <? 8 then FEIR1 else FEIR2) in
  let pin := u8 (pin mod 8) in
  let enableRising :=
    bool_decide (interruptType = INTERRUPT_RISING)
    || bool_decide (interruptType = INTERRUPT_BOTH) in
  let enableFalling :=
    bool_decide (interruptType = INTERRUPT_FALLING)
    || bool_decide (interruptType = INTERRUPT_BOTH) in
  risingInterruptRegisterValue <-
    SPI_Read chipSelectPin (setReadMode risingEdgeRegisterCommand) ;;
  let risingInterruptRegisterValue :=
    u8 (if enableRising
        then Z.lor risingInterruptRegisterValue (Z.shiftl 1 pin)
        else Z.land risingInterruptRegisterValue (Z.lnot (Z.shiftl 1 pin))) in
  SPI_Write chipSelectPin (setWriteMode risingEdgeRegisterCommand)
            risingInterruptRegisterValue ;;;
  fallingInterruptRegisterValue <-
    SPI_Read chipSelectPin (setReadMode fallingEdgeRegisterCommand) ;;
  let fallingInterruptRegisterValue :=
    u8 (if enableFalling
        then Z.lor fallingInterruptRegisterValue (Z.shiftl 1 pin)
        else Z.land fallingInterruptRegisterValue (Z.lnot (Z.shiftl 1 pin))) in
  SPI_Write chipSelectPin (setWriteMode fallingEdgeRegisterCommand)
            fallingInterruptRegisterValue ;;;
  if bool_decide (interruptType = INTERRUPT_DISABLE) then
    SPI_Write chipSelectPin (setWriteMode risingEdgeRegisterCommand)
      (Z.land risingInterruptRegisterValue (Z.lnot (Z.shiftl 1 pin))) ;;;
    SPI_Write chipSelectPin (setWriteMode fallingEdgeRegisterCommand)
      (Z.land fallingInterruptRegisterValue (Z.lnot (Z.shiftl 1 pin)))
  else ret tt.

Definition XRA1405_setInterrupt (chipSelectPin pin : Z)
    (interruptType : XRA1405_InterruptType) : M unit :=
  let interruptEnableRegisterCommand :=
    reg_value (if pin <? 8 then IER1 else IER2) in
  let pin := u8 (pin mod 8) in
  interruptEnableRegisterValue <-
    SPI_Read chipSelectPin (setReadMode interruptEnableRegisterCommand) ;;
  let interruptEnableRegisterValue :=
    u8 (Z.lor interruptEnableRegisterValue (Z.shiftl 1 pin)) in
  SPI_Write chipSelectPin (setWriteMode interruptEnableRegisterCommand)
            interruptEnableRegisterValue ;;;
  configureEdgeInterrupt chipSelectPin pin interruptType.

Definition XRA1405_clearInterrupts (chipSelectPin : Z) : M unit :=
  let interruptStatusRegister1 := reg_value ISR1 in
  let interruptStatusRegister2 := reg_value ISR2 in
  SPI_Read chipSelectPin (setReadMode interruptStatusRegister1) ;;;
  SPI_Read chipSelectPin (setReadMode interruptStatusRegister2) ;;;
  ret tt.

(** The edge configuration as the spec words it without the special
    case: only the two read-modify-write cycles, for every mode. *)
Definition configureEdgeInterrupt_two_cycles (chipSelectPin pin : Z)
    (interruptType : XRA1405_InterruptType) : M unit :=
  let risingEdgeRegisterCommand :=
    reg_value (if pin <? 8 then REIR1 else REIR2) in
  let fallingEdgeRegisterCommand :=
    reg_value (if pin <? 8 then FEIR1 else FEIR2) in
  let pin := u8 (pin mod 8) in
  let enableRising :=
    bool_decide (interruptType = INTERRUPT_RISING)
    || bool_decide (interruptType = INTERRUPT_BOTH) in
  let enableFalling :=
    bool_decide (interruptType = INTERRUPT_FALLING)
    || bool_decide (interruptType = INTERRUPT_BOTH) in
  risingInterruptRegisterValue <-
    SPI_Read chipSelectPin (setReadMode risingEdgeRegisterCommand) ;;
  SPI_Write chipSelectPin (setWriteMode risingEdgeRegisterCommand)
    (u8 (if enableRising
         then Z.lor risingInterruptRegisterValue (Z.shiftl 1 pin)
         else Z.land risingInterruptRegisterValue (Z.lnot (Z.shiftl 1 pin)))) ;;;
  fallingInterruptRegisterValue <-
    SPI_Read chipSelectPin (setReadMode fallingEdgeRegisterCommand) ;;
  SPI_Write chipSelectPin (setWriteMode fallingEdgeRegisterCommand)
    (u8 (if enableFalling
         then Z.lor fallingInterruptRegisterValue (Z.shiftl 1 pin)
         else Z.land fallingInterruptRegisterValue (Z.lnot (Z.shiftl 1 pin)))).

(** ** Observations on a world *)

(** The byte latched in register [r] of the device on line [cs]. *)
Definition reg (w : World) (cs : Z) (r : XRA1405_Register) : Z :=
  u8 (latch (regs w) cs (reg_value r)).

(** Bit [i] of that byte. *)
Definition reg_bit (w : World) (cs : Z) (r : XRA1405_Register) (i : Z) : bool :=
  Z.testbit (reg w cs r) i.

(** The events a computation appends to the trace. *)
Definition emitted {A} (m : M A) (w : World) : list Event :=
  drop (length (trace w)) (trace (exec m w)).

Definition initial_world (r : RegFile) (s : RegFile -> Z -> Z -> Z) : World :=
  mkWorld None 0 MSBFIRST SPI_MODE0 None None r s [].

(** ** Frames

    One call of the transport leaves the bus with the fixed settings, no
    device selected, and six more events in the trace. *)

Definition fixed_settings : SPISettings :=
  mkSPISettings XRA1405_SPI_CLOCK SPI_ORDER SPI_MODE.

Definition read_frame (cs cmd v : Z) : list Event :=
  [EvPin cs LOW; EvBeginTransaction fixed_settings;
   EvTransfer XRA1405_SPI_CLOCK cmd 0; EvTransfer XRA1405_SPI_CLOCK 0 v;
   EvEndTransaction; EvPin cs HIGH].

Definition write_frame (cs cmd d : Z) : list Event :=
  [EvPin cs LOW; EvBeginTransaction fixed_settings;
   EvTransfer XRA1405_SPI_CLOCK cmd 0; EvTransfer XRA1405_SPI_CLOCK d 0;
   EvEndTransaction; EvPin cs HIGH].

Definition after_frame (w : World) (r : RegFile) (evs : list Event) : World :=
  mkWorld (bus_pins w) XRA1405_SPI_CLOCK SPI_ORDER SPI_MODE None None
          r (sense w) (trace w ++ evs).

(** The transactions of a trace: the settings each one begins with. *)
Definition begin_settings (t : list Event) : list SPISettings :=
  omap (fun e => match e with EvBeginTransaction s => Some s | _ => None end) t.

(** The clock the bus ran at during each byte transfer of a trace. *)
Definition transfer_clocks (t : list Event) : list Z :=
  omap (fun e => match e with EvTransfer c _ _ => Some c | _ => None end) t.

(** The command byte of each frame of a trace: the first byte transferred
    after the transaction begins. *)
Fixpoint command_bytes (t : list Event) : list Z :=
  match t with
  | EvBeginTransaction _ :: EvTransfer _ cmd _ :: t' => cmd :: command_bytes t'
  | _ :: t' => command_bytes t'
  | [] => []
  end.

(** ** Calls

    The public surface as data, to state properties of every operation. *)

Inductive Operation :=
| PinMode (pin mode : Z)
| DigitalWrite (pin value : Z)
| DigitalRead (pin : Z)
| SetPullUp (pin : Z) (enabled : bool)
| SetInterrupt (pin : Z) (interruptType : XRA1405_InterruptType)
| ClearInterrupts.

(** Performs a call on the device of line [cs]; the result is the level
    read by [DigitalRead], and [None] for the operations returning void. *)
Definition perform `{PinModes} (cs : Z) (o : Operation) : M (option Z) :=
  match o with
  | PinMode pin mode => XRA1405_pinMode cs pin mode ;;; ret None
  | DigitalWrite pin value => XRA1405_digitalWrite cs pin value ;;; ret None
  | DigitalRead pin => v <- XRA1405_digitalRead cs pin ;; ret (Some v)
  | SetPullUp pin enabled => XRA1405_setPullUp cs pin enabled ;;; ret None
  | SetInterrupt pin t => XRA1405_setInterrupt cs pin t ;;; ret None
  | ClearInterrupts => XRA1405_clearInterrupts cs ;;; ret None
  end.

(** The operation [o] called with pin [p] instead of its own pin. *)
Definition with_pin (o : Operation) (p : Z) : Operation :=
  match o with
  | PinMode _ mode => PinMode p mode
  | DigitalWrite _ value => DigitalWrite p value
  | DigitalRead _ => DigitalRead p
  | SetPullUp _ enabled => SetPullUp p enabled
  | SetInterrupt _ t => SetInterrupt p t
  | ClearInterrupts => ClearInterrupts
  end.

(** A byte with bit [p] forced to [b]: the two arms of every
    read-modify-write of the driver. *)
Definition with_bit (b : bool) (v p : Z) : Z :=
  u8 (if b then Z.lor v (Z.shiftl 1 p)
      else Z.land v (Z.lnot (Z.shiftl 1 p))).

(** A trace made of whole frames of the device on line [cs], each with a
    command byte built by [setReadMode] or [setWriteMode] from a register
    of the enumeration. *)
Inductive Frames (cs : Z) : list Event -> Prop :=
| Frames_nil : Frames cs []
| Frames_read r v t :
    Frames cs t ->
    Frames cs (read_frame cs (setReadMode (reg_value r)) v ++ t)
| Frames_write r d t :
    Frames cs t ->
    Frames cs (write_frame cs (setWriteMode (reg_value r)) d ++ t).

(** The events of one read-modify-write cycle on register [r]: the frame
    that reads byte [v] and the frame that writes byte [nv] back. *)
Definition rmw_frames (cs : Z) (r : XRA1405_Register) (v nv : Z) : list Event :=
  read_frame cs (setReadMode (reg_value r)) v
  ++ write_frame cs (setWriteMode (reg_value r)) nv.

(** The byte a latch file holds for register [r] of the device on [cs]. *)
Definition byte_of (rf : RegFile) (cs : Z) (r : XRA1405_Register) : Z :=
  u8 (latch rf cs (reg_value r)).

(** The end-to-end scenario: pin 3 made an output, driven high, read back. *)
Definition drive_and_read_pin3 `{PinModes} (cs : Z) : M Z :=
  XRA1405_pinMode cs 3 OUTPUT ;;;
  XRA1405_digitalWrite cs 3 HIGH ;;;
  XRA1405_digitalRead cs 3.

(** Modelled from the spec: the state register of the device, which is
    hardware and not part of the repository. A configuration bit 0 makes
    the pin an output and 1 an input, the output-control bit is the logic
    level of an output pin, and the state bit tells whether the pin is
    high: an output pin shows its output-control bit, an input pin the
    level [ext] applied to it from outside. *)
Definition loopback_sense (ext : Z) (rf : RegFile) (cs a : Z) : Z :=
  let low := a =? reg_value GSR1 in
  let gcr := byte_of rf cs (if low then GCR1 else GCR2) in
  let ocr := byte_of rf cs (if low then OCR1 else OCR2) in
  Z.lor (Z.land ocr (Z.lnot gcr)) (Z.land ext gcr).

(** State registers that read 0, for worlds in which they play no role. *)
Definition held_low_sense (rf : RegFile) (cs a : Z) : Z := 0.

(** A trace of whole frames in which every byte written to a register
    agrees, outside bit [p], with the byte that register holds in [w]. *)
Inductive KeepsOtherBits (w : World) (cs p : Z) : list Event -> Prop :=
| Keeps_nil : KeepsOtherBits w cs p []
| Keeps_read r v t :
    KeepsOtherBits w cs p t ->
    KeepsOtherBits w cs p (read_frame cs (setReadMode (reg_value r)) v ++ t)
| Keeps_write r d t :
    (forall i, 0 <= i < 8 -> i <> p -> Z.testbit d i = reg_bit w cs r i) ->
    KeepsOtherBits w cs p t ->
    KeepsOtherBits w cs p (write_frame cs (setWriteMode (reg_value r)) d ++ t).

(** A program of the host: calls on the device of line [cs], one after
    the other. *)
Fixpoint perform_all `{PinModes} (cs : Z) (os : list Operation) : M unit :=
  match os with
  | [] => ret tt
  | o :: os' => perform cs o ;;; perform_all cs os'
  end.

(** The number of SPI transactions in a trace. *)
Definition transactions (t : list Event) : nat := length (begin_settings t).

(** * Properties *)

(** ** Bytes and single bits *)

Section Bits.

Lemma u8_range x : 0 <= u8 x < 256.
Proof. unfold u8. apply Z.mod_pos_bound. lia. Qed.

Lemma u8_small x : 0 <= x < 256 -> u8 x = x.
Proof. intros Hx. unfold u8. apply Z.mod_small. exact Hx. Qed.

Lemma u8_idemp x : u8 (u8 x) = u8 x.
Proof. apply u8_small, u8_range. Qed.

Lemma testbit_u8 x i : Z.testbit (u8 x) i = (i <? 8) && Z.testbit x i.
Proof.
  unfold u8. change 256 with (2 ^ 8). apply Z.testbit_mod_pow2. lia.
Qed.

Lemma testbit_one_shifted p i :
  0 <= p -> 0 <= i -> Z.testbit (Z.shiftl 1 p) i = (i =? p).
Proof.
  intros Hp Hi. rewrite Z.shiftl_1_l, Z.pow2_bits_eqb by exact Hp.
  apply Z.eqb_sym.
Qed.

(** [uint8_t(v | (1 << p))]: bit [p] becomes 1, the others stay. *)
Lemma testbit_set v p i :
  0 <= p < 8 -> 0 <= i < 8 ->
  Z.testbit (u8 (Z.lor v (Z.shiftl 1 p))) i = Z.testbit v i || (i =? p).
Proof.
  intros Hp Hi. rewrite testbit_u8, Z.lor_spec, testbit_one_shifted by lia.
  replace (i <? 8) with true by (symmetry; apply Z.ltb_lt; lia).
  reflexivity.
Qed.

(** [uint8_t(v & ~(1 << p))]: bit [p] becomes 0, the others stay. *)
Lemma testbit_clear v p i :
  0 <= p < 8 -> 0 <= i < 8 ->
  Z.testbit (u8 (Z.land v (Z.lnot (Z.shiftl 1 p)))) i
  = Z.testbit v i && negb (i =? p).
Proof.
  intros Hp Hi.
  rewrite testbit_u8, Z.land_spec, Z.lnot_spec, testbit_one_shifted by lia.
  replace (i <? 8) with true by (symmetry; apply Z.ltb_lt; lia).
  reflexivity.
Qed.

(** Two bytes with the same eight bits are equal. *)
Lemma u8_bits_eq x y :
  (forall i, 0 <= i < 8 -> Z.testbit x i = Z.testbit y i) -> u8 x = u8 y.
Proof.
  intros H. apply Z.bits_inj'. intros i Hi. rewrite !testbit_u8.
  destruct (Z.ltb_spec i 8) as [Hlt|Hge]; [|reflexivity].
  simpl. apply H. lia.
Qed.

Lemma bit_index_range pin : 0 <= pin mod 8 < 8.
Proof. apply Z.mod_pos_bound. lia. Qed.

Lemma u8_bit_index pin : u8 (pin mod 8) = pin mod 8.
Proof. apply u8_small. pose proof (bit_index_range pin). lia. Qed.

Lemma bit_index_low pin : (u8 (pin mod 8) <? 8) = true.
Proof.
  rewrite u8_bit_index. apply Z.ltb_lt. apply (bit_index_range pin).
Qed.

(** Clearing a bit that is already clear changes nothing. *)
Lemma clear_twice v p :
  0 <= p < 8 ->
  u8 (Z.land (u8 (Z.land v (Z.lnot (Z.shiftl 1 p)))) (Z.lnot (Z.shiftl 1 p)))
  = u8 (Z.land v (Z.lnot (Z.shiftl 1 p))).
Proof.
  intros Hp. apply u8_bits_eq. intros i Hi.
  rewrite Z.land_spec, testbit_u8, Z.land_spec, Z.lnot_spec,
    testbit_one_shifted by lia.
  replace (i <? 8) with true by (symmetry; apply Z.ltb_lt; lia).
  destruct (Z.testbit v i), (i =? p); reflexivity.
Qed.

End Bits.

(** ** Latches *)

Section Latches.

Implicit Types (r : RegFile) (cs a b v : Z).

Lemma latch_insert_eq r cs a v : latch (<[(cs, a) := v]> r) cs a = v.
Proof. unfold latch. rewrite lookup_insert_eq. reflexivity. Qed.

Lemma latch_insert_ne r cs cs' a b v :
  (cs, a) <> (cs', b) -> latch (<[(cs, a) := v]> r) cs' b = latch r cs' b.
Proof. intros Hne. unfold latch. rewrite lookup_insert_ne by exact Hne. reflexivity. Qed.

Lemma reg_value_inj (x y : XRA1405_Register) :
  reg_value x = reg_value y -> x = y.
Proof. destruct x, y; intros H; try reflexivity; discriminate H. Qed.

Lemma latch_insert_reg r cs (x y : XRA1405_Register) v :
  latch (<[(cs, reg_value x) := v]> r) cs (reg_value y)
  = if decide (x = y) then v else latch r cs (reg_value y).
Proof.
  destruct (decide (x = y)) as [->|Hne].
  - apply latch_insert_eq.
  - apply latch_insert_ne. intros [= H]. apply Hne, reg_value_inj, H.
Qed.

End Latches.

(** ** The transport *)

Section Transport.

Implicit Types (w : World) (cs cmd d : Z).

Lemma SPI_Read_frame cs cmd w :
  Z.testbit (u8 cmd) 7 = true ->
  SPI_Read cs cmd w
  = (dev_read w cs (cmd_register (u8 cmd)),
     after_frame w (regs w)
       (read_frame cs (u8 cmd) (dev_read w cs (cmd_register (u8 cmd))))).
Proof.
  intros Hbit. unfold SPI_Read, bind, digitalWrite, SPI_beginTransaction,
    SPI_transfer, SPI_endTransaction, ret.
  cbn [Z.eqb LOW HIGH selected latched log set_frame set_bus set_regs
       bus_pins bus_clock bus_order bus_mode regs sense trace
       set_clock set_order set_mode].
  rewrite Hbit. rewrite bool_decide_eq_true_2 by reflexivity.
  lazy beta iota delta
    [after_frame read_frame dev_read log set_frame set_bus set_regs selected
     latched bus_pins bus_clock bus_order bus_mode regs sense trace].
  change (u8 0) with 0. rewrite <- !app_assoc. reflexivity.
Qed.

Lemma SPI_Write_frame cs cmd d w :
  Z.testbit (u8 cmd) 7 = false ->
  SPI_Write cs cmd d w
  = (tt, after_frame w (<[(cs, cmd_register (u8 cmd)) := u8 d]> (regs w))
           (write_frame cs (u8 cmd) (u8 d))).
Proof.
  intros Hbit. unfold SPI_Write, bind, digitalWrite, SPI_beginTransaction,
    SPI_transfer, SPI_endTransaction.
  cbn [Z.eqb LOW HIGH selected latched log set_frame set_bus set_regs
       bus_pins bus_clock bus_order bus_mode regs sense trace
       set_clock set_order set_mode].
  rewrite Hbit. rewrite bool_decide_eq_true_2 by reflexivity.
  lazy beta iota delta
    [after_frame write_frame log set_frame set_bus set_regs selected
     latched bus_pins bus_clock bus_order bus_mode regs sense trace].
  rewrite <- !app_assoc. reflexivity.
Qed.

End Transport.

(** ** Frames on a register of the enumeration *)

Section RegisterFrames.

Implicit Types (w : World) (cs d : Z) (r : XRA1405_Register).

Lemma after_frame_twice w (rf1 rf2 : RegFile) (e1 e2 : list Event) :
  after_frame (after_frame w rf1 e1) rf2 e2 = after_frame w rf2 (e1 ++ e2).
Proof. unfold after_frame. cbn. rewrite <- app_assoc. reflexivity. Qed.

Lemma read_command_ok r :
  Z.testbit (u8 (setReadMode (reg_value r))) 7 = true
  /\ u8 (setReadMode (reg_value r)) = setReadMode (reg_value r)
  /\ cmd_register (setReadMode (reg_value r)) = reg_value r.
Proof. destruct r; repeat split; reflexivity. Qed.

Lemma write_command_ok r :
  Z.testbit (u8 (setWriteMode (reg_value r))) 7 = false
  /\ u8 (setWriteMode (reg_value r)) = setWriteMode (reg_value r)
  /\ cmd_register (setWriteMode (reg_value r)) = reg_value r.
Proof. destruct r; repeat split; reflexivity. Qed.

Lemma SPI_Read_reg cs r w :
  SPI_Read cs (setReadMode (reg_value r)) w
  = (dev_read w cs (reg_value r),
     after_frame w (regs w)
       (read_frame cs (setReadMode (reg_value r)) (dev_read w cs (reg_value r)))).
Proof.
  destruct (read_command_ok r) as (Hbit & Hu8 & Hreg).
  rewrite SPI_Read_frame by exact Hbit. rewrite Hu8, Hreg. reflexivity.
Qed.

Lemma SPI_Write_reg cs r d w :
  SPI_Write cs (setWriteMode (reg_value r)) d w
  = (tt, after_frame w (<[(cs, reg_value r) := u8 d]> (regs w))
           (write_frame cs (setWriteMode (reg_value r)) (u8 d))).
Proof.
  destruct (write_command_ok r) as (Hbit & Hu8 & Hreg).
  rewrite SPI_Write_frame by exact Hbit. rewrite Hu8, Hreg. reflexivity.
Qed.

(** A register that is not a state register reads as its latch. *)
Lemma dev_read_latch w cs r :
  r <> GSR1 -> r <> GSR2 -> dev_read w cs (reg_value r) = reg w cs r.
Proof.
  intros H1 H2. unfold dev_read, reg.
  destruct r; try reflexivity; congruence.
Qed.

Lemma dev_read_state w cs r :
  r = GSR1 \/ r = GSR2 ->
  dev_read w cs (reg_value r) = u8 (sense w (regs w) cs (reg_value r)).
Proof. intros [-> | ->]; reflexivity. Qed.

Lemma reg_after_frame w rf evs cs r :
  reg (after_frame w rf evs) cs r = u8 (latch rf cs (reg_value r)).
Proof. reflexivity. Qed.

Lemma testbit_with_bit b v p i :
  0 <= p < 8 -> 0 <= i < 8 ->
  Z.testbit (with_bit b v p) i = if i =? p then b else Z.testbit v i.
Proof.
  intros Hp Hi. unfold with_bit. destruct b.
  - rewrite testbit_set by lia. destruct (i =? p), (Z.testbit v i); reflexivity.
  - rewrite testbit_clear by lia. destruct (i =? p), (Z.testbit v i); reflexivity.
Qed.

Lemma with_bit_u8 b v p : u8 (with_bit b v p) = with_bit b v p.
Proof. apply u8_idemp. Qed.

End RegisterFrames.

(** ** What each operation does to the world *)

Lemma regs_after_frame (w : World) (rf : RegFile) (evs : list Event) :
  regs (after_frame w rf evs) = rf.
Proof. reflexivity. Qed.

Lemma with_bit_fold (b : bool) v p :
  u8 (if b then Z.lor v (Z.shiftl 1 p)
      else Z.land v (Z.lnot (Z.shiftl 1 p))) = with_bit b v p.
Proof. reflexivity. Qed.

Lemma with_bit_fold_neg (b : bool) v p :
  u8 (if b then Z.land v (Z.lnot (Z.shiftl 1 p))
      else Z.lor v (Z.shiftl 1 p)) = with_bit (negb b) v p.
Proof. destruct b; reflexivity. Qed.

Lemma with_bit_fold_set v p : u8 (Z.lor v (Z.shiftl 1 p)) = with_bit true v p.
Proof. reflexivity. Qed.

Lemma with_bit_fold_clear v p :
  u8 (Z.land v (Z.lnot (Z.shiftl 1 p))) = with_bit false v p.
Proof. reflexivity. Qed.

Lemma with_bit_false_twice v p :
  0 <= p < 8 -> with_bit false (with_bit false v p) p = with_bit false v p.
Proof. intros Hp. unfold with_bit. apply clear_twice, Hp. Qed.

Lemma reg_fold (w : World) (cs : Z) (r : XRA1405_Register) :
  u8 (latch (regs w) cs (reg_value r)) = reg w cs r.
Proof. reflexivity. Qed.

Lemma reg_u8 w cs r : u8 (reg w cs r) = reg w cs r.
Proof. apply u8_idemp. Qed.

(** Runs the frames of an operation one after the other. *)
Ltac frames :=
  repeat first
    [ rewrite SPI_Read_reg | rewrite SPI_Write_reg
    | rewrite after_frame_twice
    | rewrite regs_after_frame
    | rewrite bit_index_low
    | progress cbv beta iota zeta
    | progress unfold bind, ret ].

(** Decides the comparisons of two interrupt types. *)
Ltac decide_types :=
  repeat match goal with
         | |- context [bool_decide (?a = ?b)] =>
             let v := eval vm_compute in (bool_decide (a = b)) in
             change (bool_decide (a = b)) with v
         end;
  cbn [orb].

(** Reads latches through the writes made before. *)
Ltac latches :=
  repeat (rewrite latch_insert_reg;
          first [ rewrite decide_True by reflexivity
                | rewrite decide_False by discriminate ]).

Ltac tidy :=
  rewrite ?u8_bit_index;
  rewrite ?Z.mod_mod by lia;
  rewrite ?dev_read_latch by discriminate;
  rewrite ?reg_after_frame;
  latches;
  rewrite ?reg_fold;
  rewrite ?with_bit_fold, ?with_bit_fold_neg;
  rewrite ?with_bit_fold_set, ?with_bit_fold_clear;
  rewrite ?with_bit_u8, ?reg_u8;
  rewrite <- ?app_assoc.

Section Runs.

Context `{PinModes}.
Implicit Types (w : World) (cs pin mode value : Z).

Lemma digitalWrite_run cs pin value w :
  let R := if pin <? 8 then OCR1 else OCR2 in
  let nv := with_bit (value =? HIGH) (reg w cs R) (pin mod 8) in
  XRA1405_digitalWrite cs pin value w
  = (tt, after_frame w (<[(cs, reg_value R) := nv]> (regs w))
           (rmw_frames cs R (reg w cs R) nv)).
Proof.
  unfold XRA1405_digitalWrite, rmw_frames.
  destruct (pin <? 8); frames; tidy; reflexivity.
Qed.

Lemma setPullUp_run cs pin (enabled : bool) w :
  let R := if pin <? 8 then PUR1 else PUR2 in
  let nv := with_bit enabled (reg w cs R) (pin mod 8) in
  XRA1405_setPullUp cs pin enabled w
  = (tt, after_frame w (<[(cs, reg_value R) := nv]> (regs w))
           (rmw_frames cs R (reg w cs R) nv)).
Proof.
  unfold XRA1405_setPullUp, rmw_frames.
  destruct (pin <? 8); frames; tidy; reflexivity.
Qed.

Lemma digitalRead_run cs pin w :
  let R := if pin <? 8 then GSR1 else GSR2 in
  let v := u8 (sense w (regs w) cs (reg_value R)) in
  XRA1405_digitalRead cs pin w
  = (u8 (Z.land (Z.shiftr v (pin mod 8)) 1),
     after_frame w (regs w) (read_frame cs (setReadMode (reg_value R)) v)).
Proof.
  unfold XRA1405_digitalRead.
  destruct (pin <? 8); frames; tidy;
    rewrite dev_read_state by auto; reflexivity.
Qed.

Lemma clearInterrupts_run cs w :
  XRA1405_clearInterrupts cs w
  = (tt, after_frame w (regs w)
           (read_frame cs (setReadMode (reg_value ISR1)) (reg w cs ISR1)
            ++ read_frame cs (setReadMode (reg_value ISR2)) (reg w cs ISR2))).
Proof.
  unfold XRA1405_clearInterrupts. frames. tidy. reflexivity.
Qed.

Lemma pinMode_run cs pin mode w :
  let R := if pin <? 8 then GCR1 else GCR2 in
  let nv := with_bit (negb (mode =? OUTPUT)) (reg w cs R) (pin mod 8) in
  let pu := with_bit true (reg w cs PUR1) (pin mod 8) in
  let rf := <[(cs, reg_value R) := nv]> (regs w) in
  XRA1405_pinMode cs pin mode w
  = if mode =? INPUT_PULLUP
    then (tt, after_frame w (<[(cs, reg_value PUR1) := pu]> rf)
                (rmw_frames cs R (reg w cs R) nv
                 ++ rmw_frames cs PUR1 (reg w cs PUR1) pu))
    else (tt, after_frame w rf (rmw_frames cs R (reg w cs R) nv)).
Proof.
  unfold XRA1405_pinMode, rmw_frames.
  destruct (pin <? 8), (mode =? INPUT_PULLUP); frames; tidy; reflexivity.
Qed.

(** The two defensive writes of the disabled mode land on latches that
    already hold the bytes they carry. *)
Lemma rewrite_same (rf : RegFile) (cs : Z) (a b : XRA1405_Register) (x y : Z) :
  a <> b ->
  <[(cs, reg_value b) := y]>
    (<[(cs, reg_value a) := x]>
       (<[(cs, reg_value b) := y]> (<[(cs, reg_value a) := x]> rf)))
  = <[(cs, reg_value b) := y]> (<[(cs, reg_value a) := x]> rf).
Proof.
  intros Hab.
  rewrite (insert_insert_ne (<[(cs, reg_value a) := x]> rf)
             (cs, reg_value a) (cs, reg_value b)).
  - rewrite insert_insert_eq, insert_insert_eq. reflexivity.
  - intros [= Heq]. apply Hab, reg_value_inj, Heq.
Qed.

Lemma configureEdgeInterrupt_run cs pin (t : XRA1405_InterruptType) w :
  let RR := if pin <? 8 then REIR1 else REIR2 in
  let FR := if pin <? 8 then FEIR1 else FEIR2 in
  let enR := bool_decide (t = INTERRUPT_RISING)
             || bool_decide (t = INTERRUPT_BOTH) in
  let enF := bool_decide (t = INTERRUPT_FALLING)
             || bool_decide (t = INTERRUPT_BOTH) in
  let nr := with_bit enR (reg w cs RR) (pin mod 8) in
  let nf := with_bit enF (reg w cs FR) (pin mod 8) in
  configureEdgeInterrupt cs pin t w
  = (tt, after_frame w
           (<[(cs, reg_value FR) := nf]> (<[(cs, reg_value RR) := nr]> (regs w)))
           (rmw_frames cs RR (reg w cs RR) nr
            ++ rmw_frames cs FR (reg w cs FR) nf
            ++ if bool_decide (t = INTERRUPT_DISABLE)
               then write_frame cs (setWriteMode (reg_value RR)) nr
                    ++ write_frame cs (setWriteMode (reg_value FR)) nf
               else [])).
Proof.
  pose proof (bit_index_range pin) as Hp.
  unfold configureEdgeInterrupt, rmw_frames.
  destruct (pin <? 8), t; decide_types; frames; tidy;
    rewrite ?with_bit_false_twice by exact Hp;
    rewrite ?rewrite_same by discriminate;
    rewrite ?app_nil_r; reflexivity.
Qed.

Lemma setInterrupt_run cs pin (t : XRA1405_InterruptType) w :
  let IR := if pin <? 8 then IER1 else IER2 in
  let enR := bool_decide (t = INTERRUPT_RISING)
             || bool_decide (t = INTERRUPT_BOTH) in
  let enF := bool_decide (t = INTERRUPT_FALLING)
             || bool_decide (t = INTERRUPT_BOTH) in
  let ni := with_bit true (reg w cs IR) (pin mod 8) in
  let nr := with_bit enR (reg w cs REIR1) (pin mod 8) in
  let nf := with_bit enF (reg w cs FEIR1) (pin mod 8) in
  XRA1405_setInterrupt cs pin t w
  = (tt, after_frame w
           (<[(cs, reg_value FEIR1) := nf]>
              (<[(cs, reg_value REIR1) := nr]>
                 (<[(cs, reg_value IR) := ni]> (regs w))))
           (rmw_frames cs IR (reg w cs IR) ni
            ++ rmw_frames cs REIR1 (reg w cs REIR1) nr
            ++ rmw_frames cs FEIR1 (reg w cs FEIR1) nf
            ++ if bool_decide (t = INTERRUPT_DISABLE)
               then write_frame cs (setWriteMode (reg_value REIR1)) nr
                    ++ write_frame cs (setWriteMode (reg_value FEIR1)) nf
               else [])).
Proof.
  unfold XRA1405_setInterrupt.
  destruct (pin <? 8); frames;
    rewrite configureEdgeInterrupt_run; frames;
    unfold rmw_frames; tidy; reflexivity.
Qed.

End Runs.

(** ** Traces *)

Section Traces.

Context `{PinModes}.
Implicit Types (w : World) (cs : Z) (evs t : list Event).

Lemma emitted_after_frame {A} (m : M A) w (a : A) (rf : RegFile) evs :
  m w = (a, after_frame w rf evs) -> emitted m w = evs.
Proof.
  intros Hrun. unfold emitted, exec. rewrite Hrun. cbn.
  apply drop_app_length.
Qed.

Lemma Frames_app cs t1 t2 : Frames cs t1 -> Frames cs t2 -> Frames cs (t1 ++ t2).
Proof.
  induction 1 as [|r v t Ht IH|r d t Ht IH]; intros H2.
  - exact H2.
  - rewrite <- app_assoc. apply Frames_read, IH, H2.
  - rewrite <- app_assoc. apply Frames_write, IH, H2.
Qed.

Lemma Frames_read_one cs r v :
  Frames cs (read_frame cs (setReadMode (reg_value r)) v).
Proof.
  rewrite <- (app_nil_r (read_frame _ _ _)). apply Frames_read, Frames_nil.
Qed.

Lemma Frames_write_one cs r d :
  Frames cs (write_frame cs (setWriteMode (reg_value r)) d).
Proof.
  rewrite <- (app_nil_r (write_frame _ _ _)). apply Frames_write, Frames_nil.
Qed.

Lemma Frames_rmw cs r v nv : Frames cs (rmw_frames cs r v nv).
Proof. apply Frames_app; [apply Frames_read_one | apply Frames_write_one]. Qed.

Create HintDb frames_db.

#[local] Hint Resolve Frames_nil Frames_app Frames_read_one Frames_write_one
  Frames_rmw : frames_db.

(** Every operation leaves the bus between two frames, and what it puts
    on the bus is a sequence of whole frames. *)
Lemma perform_frames cs (o : Operation) w :
  exists a rf evs,
    perform cs o w = (a, after_frame w rf evs) /\ Frames cs evs.
Proof.
  destruct o as [pin mode|pin value|pin|pin enabled|pin t|]; unfold perform, bind, ret.
  - rewrite pinMode_run. destruct (mode =? INPUT_PULLUP);
      eexists _, _, _; (split; [reflexivity | auto with frames_db]).
  - rewrite digitalWrite_run. eexists _, _, _; split; [reflexivity | auto with frames_db].
  - rewrite digitalRead_run. eexists _, _, _; split; [reflexivity | auto with frames_db].
  - rewrite setPullUp_run. eexists _, _, _; split; [reflexivity | auto with frames_db].
  - rewrite setInterrupt_run. eexists _, _, _; split; [reflexivity|].
    destruct (bool_decide (t = INTERRUPT_DISABLE)); auto 8 with frames_db.
  - rewrite clearInterrupts_run. eexists _, _, _; split; [reflexivity | auto with frames_db].
Qed.

Lemma emitted_Frames cs (o : Operation) w : Frames cs (emitted (perform cs o) w).
Proof.
  destruct (perform_frames cs o w) as (a & rf & evs & Hrun & Hfr).
  rewrite (emitted_after_frame _ _ _ _ _ Hrun). exact Hfr.
Qed.

Lemma Frames_begin_settings cs t :
  Frames cs t -> Forall (fun s => s = fixed_settings) (begin_settings t).
Proof.
  induction 1 as [|r v t Ht IH|r d t Ht IH].
  - constructor.
  - cbn. constructor; [reflexivity | exact IH].
  - cbn. constructor; [reflexivity | exact IH].
Qed.

Lemma Frames_transfer_clocks cs t :
  Frames cs t -> Forall (fun c => c = XRA1405_SPI_CLOCK) (transfer_clocks t).
Proof.
  induction 1 as [|r v t Ht IH|r d t Ht IH].
  - constructor.
  - cbn. repeat constructor. exact IH.
  - cbn. repeat constructor. exact IH.
Qed.

Lemma Frames_command_bytes cs t :
  Frames cs t ->
  Forall (fun cmd => exists r : XRA1405_Register,
              cmd = setReadMode (reg_value r) \/ cmd = setWriteMode (reg_value r))
         (command_bytes t).
Proof.
  induction 1 as [|r v t Ht IH|r d t Ht IH].
  - constructor.
  - unfold read_frame. simpl. constructor; [exists r; left; reflexivity | exact IH].
  - unfold write_frame. simpl. constructor; [exists r; right; reflexivity | exact IH].
Qed.

End Traces.

(** ** Command bytes (C7) *)

(** C7. For every register of the enumeration, the command byte of a read
    has bit 7 set and the command byte of a write has bit 7 clear; in both
    bit 0 is clear and bits 6:1 hold the register address, which fits in
    five bits. Every operation puts on the bus only whole frames, and the
    command byte of each is built this way from a register of the
    enumeration. *)
Theorem command_byte_layout :
  (forall r : XRA1405_Register,
      Z.testbit (setReadMode (reg_value r)) 7 = true
      /\ Z.testbit (setWriteMode (reg_value r)) 7 = false
      /\ Z.testbit (setReadMode (reg_value r)) 0 = false
      /\ Z.testbit (setWriteMode (reg_value r)) 0 = false
      /\ Z.land (Z.shiftr (setReadMode (reg_value r)) 1) 0x3F = reg_addr r
      /\ Z.land (Z.shiftr (setWriteMode (reg_value r)) 1) 0x3F = reg_addr r
      /\ 0 <= reg_addr r < 2 ^ 5)
  /\ (forall (modes : PinModes) (cs : Z) (o : Operation) (w : World),
         Frames cs (emitted (perform cs o) w)
         /\ Forall (fun cmd => exists r : XRA1405_Register,
                        cmd = setReadMode (reg_value r)
                        \/ cmd = setWriteMode (reg_value r))
                   (command_bytes (emitted (perform cs o) w))).
Proof.
  split.
  - intros r. destruct r; repeat split; try reflexivity; cbn; lia.
  - intros modes cs o w. pose proof (emitted_Frames cs o w) as Hfr.
    split; [exact Hfr | apply (Frames_command_bytes cs), Hfr].
Qed.

(** ** Initialisation (C8) *)

(** C8. [XRA1405_begin] passes the default 26000000 to [SPI.setFrequency]
    for every frequency below 24000000 or above 26000000, and the given
    frequency unchanged for every frequency in between. *)
Theorem begin_frequency (sck miso mosi freq : Z) (w : World) :
  (freq < 24000000 \/ 26000000 < freq ->
   emitted (XRA1405_begin sck miso mosi freq) w
   = [EvSpiBegin sck miso mosi (-1); EvSetFrequency 26000000]
   /\ bus_clock (exec (XRA1405_begin sck miso mosi freq) w) = 26000000)
  /\ (24000000 <= freq <= 26000000 ->
      emitted (XRA1405_begin sck miso mosi freq) w
      = [EvSpiBegin sck miso mosi (-1); EvSetFrequency freq]
      /\ bus_clock (exec (XRA1405_begin sck miso mosi freq) w) = freq).
Proof.
  assert (Hrun : forall f,
    SPI_setFrequency f (snd (SPI_begin sck miso mosi (-1) w))
    = (tt, mkWorld (Some (sck, miso, mosi, -1)) f (bus_order w) (bus_mode w)
             (selected w) (latched w) (regs w) (sense w)
             (trace w ++ [EvSpiBegin sck miso mosi (-1); EvSetFrequency f]))).
  { intros f. unfold SPI_setFrequency, SPI_begin, log, set_bus. cbn.
    rewrite <- app_assoc. reflexivity. }
  unfold emitted, exec, XRA1405_begin, bind.
  split; intros Hf.
  - replace ((freq <? 24000000) || (freq >? 26000000)) with true.
    + change (SPI_begin sck miso mosi (-1) w)
        with (tt, snd (SPI_begin sck miso mosi (-1) w)).
      cbv beta iota. rewrite Hrun. cbn. rewrite drop_app_length. split; reflexivity.
    + symmetry. apply orb_true_iff. destruct Hf as [Hlo|Hhi].
      * left. apply Z.ltb_lt, Hlo.
      * right. apply Z.gtb_lt, Hhi.
  - replace ((freq <? 24000000) || (freq >? 26000000)) with false.
    + change (SPI_begin sck miso mosi (-1) w)
        with (tt, snd (SPI_begin sck miso mosi (-1) w)).
      cbv beta iota. rewrite Hrun. cbn. rewrite drop_app_length. split; reflexivity.
    + symmetry. apply orb_false_iff. split.
      * apply Z.ltb_ge. lia.
      * rewrite Z.gtb_ltb. apply Z.ltb_ge. lia.
Qed.

Lemma begin_frequency_witness :
  (emitted (XRA1405_begin 18 19 23 10000000) (initial_world ∅ (fun _ _ _ => 0))
   = [EvSpiBegin 18 19 23 (-1); EvSetFrequency 26000000]
   /\ bus_clock (exec (XRA1405_begin 18 19 23 10000000)
                   (initial_world ∅ (fun _ _ _ => 0))) = 26000000)
  /\ (emitted (XRA1405_begin 18 19 23 25000000) (initial_world ∅ (fun _ _ _ => 0))
      = [EvSpiBegin 18 19 23 (-1); EvSetFrequency 25000000]
      /\ bus_clock (exec (XRA1405_begin 18 19 23 25000000)
                      (initial_world ∅ (fun _ _ _ => 0))) = 25000000).
Proof.
  split.
  - apply (proj1 (begin_frequency 18 19 23 10000000
                    (initial_world ∅ (fun _ _ _ => 0)))).
    left. lia.
  - apply (proj2 (begin_frequency 18 19 23 25000000
                    (initial_world ∅ (fun _ _ _ => 0)))).
    lia.
Defined.

(** ** Per-transaction settings (C10) *)

(** C10. Whatever frequency [XRA1405_begin] was called with, every
    transaction of every operation begins with the settings
    (26000000, MSBFIRST, SPI_MODE0), and every byte is transferred with
    the bus clocked at 26000000. *)
Theorem transaction_settings_fixed (modes : PinModes)
    (sck miso mosi freq cs : Z) (o : Operation) (w : World) :
  let w1 := exec (XRA1405_begin sck miso mosi freq) w in
  Forall (fun s => s = mkSPISettings 26000000 MSBFIRST SPI_MODE0)
         (begin_settings (emitted (perform cs o) w1))
  /\ Forall (fun c => c = 26000000)
            (transfer_clocks (emitted (perform cs o) w1))
  /\ length (begin_settings (emitted (perform cs o) w1))
     = length (command_bytes (emitted (perform cs o) w1)).
Proof.
  intros w1. pose proof (emitted_Frames cs o w1) as Hfr.
  split; [|split].
  - apply (Frames_begin_settings cs), Hfr.
  - apply (Frames_transfer_clocks cs), Hfr.
  - induction Hfr as [|r v t Ht IH|r d t Ht IH];
      unfold read_frame, write_frame; simpl; congruence.
Qed.

(** After [XRA1405_begin] with 24000000 the bus is configured for
    24000000, and the next operation still runs its frames at 26000000. *)
Example settings_override_24MHz :
  let w1 := exec (XRA1405_begin 18 19 23 24000000)
                 (initial_world ∅ (fun _ _ _ => 0)) in
  bus_clock w1 = 24000000
  /\ transfer_clocks (emitted (XRA1405_digitalWrite 5 3 HIGH) w1)
     = [26000000; 26000000; 26000000; 26000000].
Proof. vm_compute. split; reflexivity. Qed.

(** ** The defensive writes of the disabled mode (C5) *)

Lemma configureEdgeInterrupt_two_cycles_run (cs pin : Z)
    (t : XRA1405_InterruptType) (w : World) :
  let RR := if pin <? 8 then REIR1 else REIR2 in
  let FR := if pin <? 8 then FEIR1 else FEIR2 in
  let enR := bool_decide (t = INTERRUPT_RISING)
             || bool_decide (t = INTERRUPT_BOTH) in
  let enF := bool_decide (t = INTERRUPT_FALLING)
             || bool_decide (t = INTERRUPT_BOTH) in
  let nr := with_bit enR (reg w cs RR) (pin mod 8) in
  let nf := with_bit enF (reg w cs FR) (pin mod 8) in
  configureEdgeInterrupt_two_cycles cs pin t w
  = (tt, after_frame w
           (<[(cs, reg_value FR) := nf]> (<[(cs, reg_value RR) := nr]> (regs w)))
           (rmw_frames cs RR (reg w cs RR) nr
            ++ rmw_frames cs FR (reg w cs FR) nf)).
Proof.
  unfold configureEdgeInterrupt_two_cycles, rmw_frames.
  destruct (pin <? 8); frames; tidy; reflexivity.
Qed.

(** C5. In the disabled mode the edge configuration emits, after the two
    read-modify-write cycles, two more write frames that carry the bytes
    the cycles wrote; the latches end as the two cycles alone leave them. *)
Theorem disabled_rewrites_redundant (cs pin : Z) (w : World) :
  let two := configureEdgeInterrupt_two_cycles cs pin INTERRUPT_DISABLE in
  let RR := if pin <? 8 then REIR1 else REIR2 in
  let FR := if pin <? 8 then FEIR1 else FEIR2 in
  regs (exec (configureEdgeInterrupt cs pin INTERRUPT_DISABLE) w)
  = regs (exec two w)
  /\ emitted (configureEdgeInterrupt cs pin INTERRUPT_DISABLE) w
     = emitted two w
       ++ write_frame cs (setWriteMode (reg_value RR)) (reg (exec two w) cs RR)
       ++ write_frame cs (setWriteMode (reg_value FR)) (reg (exec two w) cs FR).
Proof.
  intros two RR FR. subst two.
  pose proof (configureEdgeInterrupt_run cs pin INTERRUPT_DISABLE w) as Hrun.
  pose proof (configureEdgeInterrupt_two_cycles_run cs pin INTERRUPT_DISABLE w)
    as Htwo.
  cbv zeta in Hrun, Htwo. fold RR FR in Hrun, Htwo.
  rewrite (emitted_after_frame _ _ _ _ _ Hrun).
  rewrite (emitted_after_frame _ _ _ _ _ Htwo).
  unfold exec. rewrite Hrun, Htwo. cbn [snd].
  rewrite !regs_after_frame, !reg_after_frame. split; [reflexivity|].
  assert (HRF : RR <> FR) by (unfold RR, FR; destruct (pin <? 8); discriminate).
  rewrite latch_insert_eq, latch_insert_reg, decide_False by (intros E; apply HRF; congruence).
  rewrite latch_insert_eq, !with_bit_u8.
  decide_types. rewrite <- !app_assoc. reflexivity.
Qed.

(** ** Read-modify-write leaves the other bits alone (C2) *)


Section OtherBits.

Implicit Types (w : World) (cs p : Z) (t : list Event).

Lemma Keeps_app w cs p t1 t2 :
  KeepsOtherBits w cs p t1 -> KeepsOtherBits w cs p t2 ->
  KeepsOtherBits w cs p (t1 ++ t2).
Proof.
  induction 1 as [|r v t Ht IH|r d t Hd Ht IH]; intros H2.
  - exact H2.
  - rewrite <- app_assoc. apply Keeps_read, IH, H2.
  - rewrite <- app_assoc. apply Keeps_write; [exact Hd | apply IH, H2].
Qed.

Lemma Keeps_read_one w cs p r v :
  KeepsOtherBits w cs p (read_frame cs (setReadMode (reg_value r)) v).
Proof.
  rewrite <- (app_nil_r (read_frame _ _ _)). apply Keeps_read, Keeps_nil.
Qed.

(** Writing back the byte read with bit [p] forced keeps the other bits. *)
Lemma Keeps_write_one w cs p r (b : bool) :
  0 <= p < 8 ->
  KeepsOtherBits w cs p
    (write_frame cs (setWriteMode (reg_value r)) (with_bit b (reg w cs r) p)).
Proof.
  intros Hp. rewrite <- (app_nil_r (write_frame _ _ _)).
  apply Keeps_write; [|apply Keeps_nil].
  intros i Hi Hne. rewrite testbit_with_bit by lia.
  destruct (Z.eqb_spec i p); [contradiction | reflexivity].
Qed.

Lemma Keeps_rmw w cs p r v (b : bool) :
  0 <= p < 8 ->
  KeepsOtherBits w cs p (rmw_frames cs r v (with_bit b (reg w cs r) p)).
Proof.
  intros Hp. apply Keeps_app; [apply Keeps_read_one | apply Keeps_write_one, Hp].
Qed.

End OtherBits.

(** Looks a register up through the writes of an operation and compares
    one of its bits with the bit before. *)
Ltac through_writes Hp Hi Hne :=
  unfold reg_bit; rewrite reg_after_frame, ?latch_insert_reg;
  repeat match goal with
         | |- context [decide (?x = ?y)] =>
             destruct (decide (x = y)) as [<-|?]
         end;
  rewrite ?with_bit_u8, ?testbit_with_bit by (exact Hp || exact Hi);
  try match goal with
      | |- context [?i =? ?p] =>
          destruct (Z.eqb_spec i p); [contradiction|]
      end;
  reflexivity.

(** Splits the trace of an operation into its frames. *)
Ltac keeps Hp :=
  repeat first
    [ apply Keeps_nil
    | apply Keeps_rmw; exact Hp
    | apply Keeps_write_one; exact Hp
    | apply Keeps_read_one
    | apply Keeps_app ].

(** What an operation puts on the bus never rewrites another bit. *)
Lemma emitted_keeps_other_bits (modes : PinModes) (cs pin : Z)
    (o : Operation) (w : World) :
  KeepsOtherBits w cs (pin mod 8) (emitted (perform cs (with_pin o pin)) w).
Proof.
  pose proof (bit_index_range pin) as Hp.
  destruct o as [pin0 mode|pin0 value|pin0|pin0 enabled|pin0 t|];
    unfold with_pin, perform.
  - destruct (mode =? INPUT_PULLUP) eqn:Hmode;
      (erewrite emitted_after_frame;
       [|unfold bind, ret; rewrite pinMode_run, Hmode; reflexivity]);
      keeps Hp.
  - erewrite emitted_after_frame;
      [|unfold bind, ret; rewrite digitalWrite_run; reflexivity].
    keeps Hp.
  - erewrite emitted_after_frame;
      [|unfold bind, ret; rewrite digitalRead_run; reflexivity].
    keeps Hp.
  - erewrite emitted_after_frame;
      [|unfold bind, ret; rewrite setPullUp_run; reflexivity].
    keeps Hp.
  - erewrite emitted_after_frame;
      [|unfold bind, ret; rewrite setInterrupt_run; reflexivity].
    destruct (bool_decide (t = INTERRUPT_DISABLE)); keeps Hp.
  - erewrite emitted_after_frame;
      [|unfold bind, ret; rewrite clearInterrupts_run; reflexivity].
    keeps Hp.
Qed.

(** C2. For every operation, every valid pin and every starting content
    of the registers: every byte the operation writes to a register
    agrees with the byte that register held, in every bit other than bit
    [pin mod 8]; and every register ends with those bits as they were. *)
Theorem rmw_preserves_other_bits (modes : PinModes) (cs pin : Z)
    (o : Operation) (w : World) (r : XRA1405_Register) (i : Z) :
  0 <= pin < 16 -> 0 <= i < 8 -> i <> pin mod 8 ->
  reg_bit (exec (perform cs (with_pin o pin)) w) cs r i = reg_bit w cs r i
  /\ KeepsOtherBits w cs (pin mod 8) (emitted (perform cs (with_pin o pin)) w).
Proof.
  intros Hpin Hi Hne. pose proof (bit_index_range pin) as Hp.
  split; [|apply emitted_keeps_other_bits].
  destruct o as [pin0 mode|pin0 value|pin0|pin0 enabled|pin0 t|];
    unfold with_pin, perform, exec, bind, ret.
  - rewrite pinMode_run. destruct (mode =? INPUT_PULLUP); cbn [snd];
      through_writes Hp Hi Hne.
  - rewrite digitalWrite_run. cbn [snd]. through_writes Hp Hi Hne.
  - rewrite digitalRead_run. reflexivity.
  - rewrite setPullUp_run. cbn [snd]. through_writes Hp Hi Hne.
  - rewrite setInterrupt_run. cbn [snd]. through_writes Hp Hi Hne.
  - rewrite clearInterrupts_run. reflexivity.
Qed.

Lemma rmw_preserves_other_bits_witness :
  let w := initial_world {[ (5, reg_value OCR2) := 0xA5 ]} (fun _ _ _ => 0) in
  reg_bit (exec (@perform esp32_modes 5 (with_pin (DigitalWrite 0 HIGH) 11)) w)
          5 OCR2 2
  = reg_bit w 5 OCR2 2
  /\ KeepsOtherBits w 5 (11 mod 8)
       (emitted (@perform esp32_modes 5 (with_pin (DigitalWrite 0 HIGH) 11)) w).
Proof.
  apply (rmw_preserves_other_bits esp32_modes 5 11 (DigitalWrite 0 HIGH)
           (initial_world {[ (5, reg_value OCR2) := 0xA5 ]} (fun _ _ _ => 0))
           OCR2 2); [lia | lia | vm_compute; discriminate].
Defined.

(** ** Pins beyond 15 (C9) *)

Section HighPins.

Context `{PinModes}.
Implicit Types (w : World) (cs p : Z).

Lemma high_pin_bank p : 8 <= p -> (p <? 8) = false.
Proof. intros Hp. apply Z.ltb_ge, Hp. Qed.

Lemma alias_bank p : (8 + p mod 8 <? 8) = false.
Proof. pose proof (bit_index_range p). apply Z.ltb_ge. lia. Qed.

Lemma alias_index p : (8 + p mod 8) mod 8 = p mod 8.
Proof.
  replace (8 + p mod 8) with (p mod 8 + 1 * 8) by lia.
  rewrite Z.mod_add by lia. apply Z.mod_mod. lia.
Qed.

Lemma testbit_low_bit v : Z.land v 1 = Z.b2z (Z.testbit v 0).
Proof.
  change 1 with (Z.ones 1). rewrite Z.land_ones by lia.
  rewrite Z.bit0_mod. reflexivity.
Qed.

(** The level [XRA1405_digitalRead] computes is the addressed bit. *)
Lemma read_level v p :
  0 <= p -> u8 (Z.land (Z.shiftr v p) 1) = Z.b2z (Z.testbit v p).
Proof.
  intros Hp. rewrite testbit_low_bit, Z.shiftr_spec by lia.
  rewrite Z.add_0_l. apply u8_small. destruct (Z.testbit v p); cbn; lia.
Qed.

End HighPins.

(** C9 as stated fails at pin 16: the pull-up register [XRA1405_pinMode]
    selects and the edge registers [XRA1405_setInterrupt] selects are
    those of the low bank, PUR1, REIR1 and FEIR1; the high-bank registers
    PUR2, REIR2 and FEIR2 keep their bytes. *)
Lemma high_pin_16_reaches_low_bank :
  let w := initial_world ∅ held_low_sense in
  let pulled := exec (@XRA1405_pinMode esp32_modes 5 16
                        (@INPUT_PULLUP esp32_modes)) w in
  let armed := exec (XRA1405_setInterrupt 5 16 INTERRUPT_BOTH) w in
  reg_bit pulled 5 PUR2 (16 mod 8) <> true
  /\ reg pulled 5 PUR2 = 0x00 /\ reg pulled 5 PUR1 = 0x01
  /\ reg_bit armed 5 REIR2 (16 mod 8) <> true
  /\ reg_bit armed 5 FEIR2 (16 mod 8) <> true
  /\ reg armed 5 REIR2 = 0x00 /\ reg armed 5 FEIR2 = 0x00
  /\ reg armed 5 REIR1 = 0x01 /\ reg armed 5 FEIR1 = 0x01.
Proof. vm_compute. repeat split; try reflexivity; discriminate. Qed.

(** C9, amended. For every pin argument p from 16 to 255, each per-pin
    operation returns (there is no error path) exactly what the same
    operation returns for pin 8 + (p mod 8), in result and in world; the
    register each operation selects from the pin argument itself
    (configuration, output-control, state, pull-up in [XRA1405_setPullUp],
    interrupt-enable) is the one of the high bank, and the bit is
    p mod 8. *)
Theorem high_pins_alias (modes : PinModes) (cs p : Z) (o : Operation)
    (w : World) :
  16 <= p < 256 ->
  perform cs (with_pin o p) w = perform cs (with_pin o (8 + p mod 8)) w
  /\ (forall mode,
         reg_bit (exec (XRA1405_pinMode cs p mode) w) cs GCR2 (p mod 8)
         = negb (mode =? OUTPUT))
  /\ (forall value,
         reg_bit (exec (XRA1405_digitalWrite cs p value) w) cs OCR2 (p mod 8)
         = (value =? HIGH))
  /\ eval (XRA1405_digitalRead cs p) w
     = Z.b2z (Z.testbit (sense w (regs w) cs (reg_value GSR2)) (p mod 8))
  /\ (forall enabled,
         reg_bit (exec (XRA1405_setPullUp cs p enabled) w) cs PUR2 (p mod 8)
         = enabled)
  /\ (forall t,
         reg_bit (exec (XRA1405_setInterrupt cs p t) w) cs IER2 (p mod 8)
         = true).
Proof.
  intros Hp. pose proof (bit_index_range p) as Hi.
  assert (Hb : (p <? 8) = false) by (apply high_pin_bank; lia).
  assert (Hbit : forall b v, Z.testbit (with_bit b v (p mod 8)) (p mod 8) = b).
  { intros b v. rewrite testbit_with_bit by lia. rewrite Z.eqb_refl. reflexivity. }
  split; [|repeat split].
  - destruct o as [pin0 mode|pin0 value|pin0|pin0 enabled|pin0 t|];
      unfold with_pin, perform, bind, ret.
    + rewrite !pinMode_run, alias_bank, alias_index, Hb. reflexivity.
    + rewrite !digitalWrite_run, alias_bank, alias_index, Hb. reflexivity.
    + rewrite !digitalRead_run, alias_bank, alias_index, Hb. reflexivity.
    + rewrite !setPullUp_run, alias_bank, alias_index, Hb. reflexivity.
    + rewrite !setInterrupt_run, alias_bank, alias_index, Hb. reflexivity.
    + reflexivity.
  - intros mode. unfold exec, reg_bit. rewrite pinMode_run, Hb.
    destruct (mode =? INPUT_PULLUP); cbn [snd]; rewrite reg_after_frame;
      latches; rewrite with_bit_u8; apply Hbit.
  - intros value. unfold exec, reg_bit. rewrite digitalWrite_run, Hb.
    cbn [snd]. rewrite reg_after_frame. latches. rewrite with_bit_u8. apply Hbit.
  - unfold eval. rewrite digitalRead_run, Hb. cbn [fst].
    rewrite read_level by lia. rewrite testbit_u8.
    replace (p mod 8 <? 8) with true by (symmetry; apply Z.ltb_lt; lia).
    reflexivity.
  - intros enabled. unfold exec, reg_bit. rewrite setPullUp_run, Hb.
    cbn [snd]. rewrite reg_after_frame. latches. rewrite with_bit_u8. apply Hbit.
  - intros t. unfold exec, reg_bit. rewrite setInterrupt_run, Hb.
    cbn [snd]. rewrite reg_after_frame. latches. rewrite with_bit_u8. apply Hbit.
Qed.

Lemma high_pins_alias_witness :
  @perform esp32_modes 5 (with_pin (DigitalWrite 0 HIGH) 19)
     (initial_world ∅ (fun _ _ _ => 0))
  = @perform esp32_modes 5 (with_pin (DigitalWrite 0 HIGH) (8 + 19 mod 8))
      (initial_world ∅ (fun _ _ _ => 0)).
Proof.
  apply (high_pins_alias esp32_modes 5 19 (DigitalWrite 0 HIGH)
           (initial_world ∅ (fun _ _ _ => 0))).
  lia.
Defined.

(** ** Pull-up through [XRA1405_pinMode] (C1) *)

(** [XRA1405_setPullUp] picks the pull-up register from the pin argument:
    pins 8 to 15 reach PUR2. *)
Lemma setPullUp_high_bank (cs pin : Z) (w : World) :
  8 <= pin < 16 ->
  reg_bit (exec (XRA1405_setPullUp cs pin true) w) cs PUR2 (pin mod 8) = true
  /\ reg (exec (XRA1405_setPullUp cs pin true) w) cs PUR1 = reg w cs PUR1.
Proof.
  intros Hpin. pose proof (bit_index_range pin) as Hp.
  unfold exec, reg_bit. rewrite setPullUp_run, high_pin_bank by lia. cbn [snd].
  rewrite !reg_after_frame. latches. rewrite with_bit_u8, testbit_with_bit by lia.
  rewrite Z.eqb_refl. split; reflexivity.
Qed.

(** C1, as the code has it. For every pin 8 to 15, [XRA1405_pinMode] with
    INPUT_PULLUP picks the pull-up register after the pin was reduced
    modulo 8: it sets bit [pin mod 8] of the low-bank register PUR1 and
    leaves the high-bank register PUR2 as it was. *)
Theorem pinMode_pullup_lands_in_low_bank (modes : PinModes) (cs pin : Z)
    (w : World) :
  8 <= pin < 16 ->
  let w' := exec (XRA1405_pinMode cs pin INPUT_PULLUP) w in
  reg w' cs PUR2 = reg w cs PUR2
  /\ reg_bit w' cs PUR1 (pin mod 8) = true
  /\ reg_bit w' cs GCR2 (pin mod 8) = negb (INPUT_PULLUP =? OUTPUT).
Proof.
  intros Hpin w'. pose proof (bit_index_range pin) as Hp.
  unfold w', exec, reg_bit. rewrite pinMode_run, high_pin_bank by lia.
  rewrite Z.eqb_refl. cbn [snd]. rewrite !reg_after_frame. latches.
  rewrite !with_bit_u8, !testbit_with_bit by lia. rewrite Z.eqb_refl.
  repeat split; reflexivity.
Qed.

Lemma pinMode_pullup_lands_in_low_bank_witness :
  let w := initial_world ∅ held_low_sense in
  let w' := exec (@XRA1405_pinMode esp32_modes 5 8 (@INPUT_PULLUP esp32_modes)) w in
  reg w' 5 PUR2 = reg w 5 PUR2
  /\ reg_bit w' 5 PUR1 (8 mod 8) = true
  /\ reg_bit w' 5 GCR2 (8 mod 8)
     = negb (@INPUT_PULLUP esp32_modes =? @OUTPUT esp32_modes).
Proof.
  apply (pinMode_pullup_lands_in_low_bank esp32_modes 5 8
           (initial_world ∅ held_low_sense)).
  lia.
Defined.

(** The failing input of C1 evaluated: pin 8 on a device with all
    pull-ups off ends with PUR1 = 0x01 and PUR2 = 0x00. *)
Example pinMode_pullup_pin8 :
  let w' := exec (@XRA1405_pinMode esp32_modes 5 8 (@INPUT_PULLUP esp32_modes))
                 (initial_world ∅ held_low_sense) in
  reg w' 5 PUR1 = 0x01 /\ reg w' 5 PUR2 = 0x00 /\ reg_bit w' 5 PUR2 0 = false.
Proof. vm_compute. repeat split; reflexivity. Qed.

(** ** Edge interrupts (C3, C4) *)

Section Edges.

Implicit Types (w : World) (cs pin : Z).

(** On pins 0 to 7 both edge bits of the pin follow the mode. *)
Lemma setInterrupt_low_pins cs pin (t : XRA1405_InterruptType) w :
  0 <= pin < 8 ->
  let w' := exec (XRA1405_setInterrupt cs pin t) w in
  reg_bit w' cs IER1 pin = true
  /\ reg_bit w' cs REIR1 pin
     = bool_decide (t = INTERRUPT_RISING) || bool_decide (t = INTERRUPT_BOTH)
  /\ reg_bit w' cs FEIR1 pin
     = bool_decide (t = INTERRUPT_FALLING) || bool_decide (t = INTERRUPT_BOTH).
Proof.
  intros Hpin w'. unfold w', exec, reg_bit.
  rewrite setInterrupt_run.
  replace (pin <? 8) with true by (symmetry; apply Z.ltb_lt; lia).
  cbn [snd]. rewrite !reg_after_frame. latches.
  rewrite !with_bit_u8. rewrite (Z.mod_small pin 8) by lia.
  rewrite !testbit_with_bit by lia. rewrite Z.eqb_refl.
  repeat split; reflexivity.
Qed.

(** On pins 8 to 15 the interrupt-enable bit is set in IER2, and the edge
    bits are forced in the low-bank registers REIR1 and FEIR1: the edge
    registers of the pin's own bank, REIR2 and FEIR2, stay as they were. *)
Lemma setInterrupt_high_pins cs pin (t : XRA1405_InterruptType) w :
  8 <= pin < 16 ->
  let w' := exec (XRA1405_setInterrupt cs pin t) w in
  reg_bit w' cs IER2 (pin mod 8) = true
  /\ reg w' cs REIR2 = reg w cs REIR2
  /\ reg w' cs FEIR2 = reg w cs FEIR2
  /\ reg_bit w' cs REIR1 (pin mod 8)
     = bool_decide (t = INTERRUPT_RISING) || bool_decide (t = INTERRUPT_BOTH)
  /\ reg_bit w' cs FEIR1 (pin mod 8)
     = bool_decide (t = INTERRUPT_FALLING) || bool_decide (t = INTERRUPT_BOTH).
Proof.
  intros Hpin w'. pose proof (bit_index_range pin) as Hp.
  unfold w', exec, reg_bit.
  rewrite setInterrupt_run, high_pin_bank by lia. cbn [snd].
  rewrite !reg_after_frame. latches. rewrite !reg_fold.
  rewrite !with_bit_u8, !testbit_with_bit by lia. rewrite Z.eqb_refl.
  repeat split; reflexivity.
Qed.

End Edges.

(** C3, as the code has it. For every pin 8 to 15, [XRA1405_setInterrupt]
    with INTERRUPT_BOTH leaves the rising-edge and falling-edge registers
    of the high bank untouched, so an edge bit of the pin that was 0 is
    still 0; the bits it sets to 1 are those of pin [pin - 8] in the
    low-bank registers. *)
Theorem setInterrupt_both_misses_high_bank (cs pin : Z) (w : World) :
  8 <= pin < 16 ->
  let w' := exec (XRA1405_setInterrupt cs pin INTERRUPT_BOTH) w in
  reg_bit w' cs REIR2 (pin mod 8) = reg_bit w cs REIR2 (pin mod 8)
  /\ reg_bit w' cs FEIR2 (pin mod 8) = reg_bit w cs FEIR2 (pin mod 8)
  /\ reg_bit w' cs REIR1 (pin mod 8) = true
  /\ reg_bit w' cs FEIR1 (pin mod 8) = true.
Proof.
  intros Hpin w'.
  destruct (setInterrupt_high_pins cs pin INTERRUPT_BOTH w Hpin)
    as (_ & HR2 & HF2 & HR1 & HF1).
  fold w' in HR2, HF2, HR1, HF1. unfold reg_bit in *.
  rewrite HR2, HF2, HR1, HF1. repeat split; reflexivity.
Qed.

Lemma setInterrupt_both_misses_high_bank_witness :
  let w := initial_world ∅ held_low_sense in
  let w' := exec (XRA1405_setInterrupt 5 8 INTERRUPT_BOTH) w in
  reg_bit w' 5 REIR2 (8 mod 8) = reg_bit w 5 REIR2 (8 mod 8)
  /\ reg_bit w' 5 FEIR2 (8 mod 8) = reg_bit w 5 FEIR2 (8 mod 8)
  /\ reg_bit w' 5 REIR1 (8 mod 8) = true
  /\ reg_bit w' 5 FEIR1 (8 mod 8) = true.
Proof.
  apply (setInterrupt_both_misses_high_bank 5 8 (initial_world ∅ held_low_sense)).
  lia.
Defined.

(** The failing input of C3 evaluated: pin 8, mode both, all edge
    registers 0x00 before. *)
Example setInterrupt_both_pin8 :
  let w' := exec (XRA1405_setInterrupt 5 8 INTERRUPT_BOTH)
                 (initial_world ∅ held_low_sense) in
  reg w' 5 REIR2 = 0x00 /\ reg w' 5 FEIR2 = 0x00
  /\ reg w' 5 REIR1 = 0x01 /\ reg w' 5 FEIR1 = 0x01 /\ reg w' 5 IER2 = 0x01.
Proof. vm_compute. repeat split; reflexivity. Qed.

(** C4, as the code has it. For every pin 8 to 15, [XRA1405_setInterrupt]
    with INTERRUPT_DISABLE sets the interrupt-enable bit of the pin in
    IER2, and leaves the edge registers of the high bank untouched, so an
    edge bit of the pin that was 1 is still 1; the bits it clears are
    those of pin [pin - 8] in the low-bank registers. *)
Theorem setInterrupt_disable_misses_high_bank (cs pin : Z) (w : World) :
  8 <= pin < 16 ->
  let w' := exec (XRA1405_setInterrupt cs pin INTERRUPT_DISABLE) w in
  reg_bit w' cs IER2 (pin mod 8) = true
  /\ reg_bit w' cs REIR2 (pin mod 8) = reg_bit w cs REIR2 (pin mod 8)
  /\ reg_bit w' cs FEIR2 (pin mod 8) = reg_bit w cs FEIR2 (pin mod 8)
  /\ reg_bit w' cs REIR1 (pin mod 8) = false
  /\ reg_bit w' cs FEIR1 (pin mod 8) = false.
Proof.
  intros Hpin w'.
  destruct (setInterrupt_high_pins cs pin INTERRUPT_DISABLE w Hpin)
    as (HI & HR2 & HF2 & HR1 & HF1).
  fold w' in HI, HR2, HF2, HR1, HF1. unfold reg_bit in *.
  rewrite HI, HR2, HF2, HR1, HF1. repeat split; reflexivity.
Qed.

Lemma setInterrupt_disable_misses_high_bank_witness :
  let w := initial_world {[ (5, reg_value REIR2) := 0x01;
                            (5, reg_value FEIR2) := 0x01 ]} held_low_sense in
  let w' := exec (XRA1405_setInterrupt 5 8 INTERRUPT_DISABLE) w in
  reg_bit w' 5 IER2 (8 mod 8) = true
  /\ reg_bit w' 5 REIR2 (8 mod 8) = reg_bit w 5 REIR2 (8 mod 8)
  /\ reg_bit w' 5 FEIR2 (8 mod 8) = reg_bit w 5 FEIR2 (8 mod 8)
  /\ reg_bit w' 5 REIR1 (8 mod 8) = false
  /\ reg_bit w' 5 FEIR1 (8 mod 8) = false.
Proof.
  apply (setInterrupt_disable_misses_high_bank 5 8
           (initial_world {[ (5, reg_value REIR2) := 0x01;
                             (5, reg_value FEIR2) := 0x01 ]} held_low_sense)).
  lia.
Defined.

(** The failing input of C4 evaluated: pin 8, mode disabled, both edges
    of pin 8 armed before (REIR2 = FEIR2 = 0x01). *)
Example setInterrupt_disable_pin8 :
  let w' := exec (XRA1405_setInterrupt 5 8 INTERRUPT_DISABLE)
                 (initial_world {[ (5, reg_value REIR2) := 0x01;
                                   (5, reg_value FEIR2) := 0x01 ]}
                                held_low_sense) in
  reg w' 5 REIR2 = 0x01 /\ reg w' 5 FEIR2 = 0x01 /\ reg w' 5 IER2 = 0x01.
Proof. vm_compute. repeat split; reflexivity. Qed.

(** ** End to end on pin 3 (C6) *)

Section EndToEnd.

Context `{PinModes}.
Implicit Types (w : World) (cs : Z).

(** The scenario, run: the two writes and what the read returns. *)
Lemma drive_and_read_pin3_run cs w :
  reg w cs GCR1 = 0xFF -> reg w cs OCR1 = 0x00 ->
  exists (rf : RegFile) (evs : list Event),
    drive_and_read_pin3 cs w
    = (Z.b2z (Z.testbit (sense w rf cs (reg_value GSR1)) 3),
       after_frame w rf evs)
    /\ byte_of rf cs GCR1 = 0xF7 /\ byte_of rf cs OCR1 = 0x08.
Proof.
  intros HG HO. unfold drive_and_read_pin3, bind.
  rewrite pinMode_run. change (3 <? 8) with true. change (3 mod 8) with 3.
  rewrite Z.eqb_refl, HG. cbn [negb].
  destruct (OUTPUT =? INPUT_PULLUP).
  - rewrite digitalWrite_run, digitalRead_run.
    change (3 <? 8) with true. change (3 mod 8) with 3. change (HIGH =? HIGH) with true.
    rewrite !after_frame_twice, !regs_after_frame, reg_after_frame. latches.
    rewrite reg_fold, HO. rewrite read_level by lia. rewrite testbit_u8.
    change (3 <? 8) with true. cbn [andb].
    eexists _, _. split; [reflexivity|]. unfold byte_of. latches.
    split; reflexivity.
  - rewrite digitalWrite_run, digitalRead_run.
    change (3 <? 8) with true. change (3 mod 8) with 3. change (HIGH =? HIGH) with true.
    rewrite !after_frame_twice, !regs_after_frame, reg_after_frame. latches.
    rewrite reg_fold, HO. rewrite read_level by lia. rewrite testbit_u8.
    change (3 <? 8) with true. cbn [andb].
    eexists _, _. split; [reflexivity|]. unfold byte_of. latches.
    split; reflexivity.
Qed.

End EndToEnd.

(** C6. On the device of the spec, whose state register shows for an
    output pin the level of its output-control bit: starting from
    configuration register 0xFF and output-control register 0x00, the
    sequence set pin 3 to output, write pin 3 high, read pin 3 returns
    high, and leaves the configuration register at 0xF7 (bit 3 cleared,
    the other bits as before) and the output-control register at 0x08
    (bit 3 set, the other bits as before), whatever levels are applied to
    the input pins. *)
Theorem drive_and_read_pin3_returns_high (modes : PinModes) (cs ext : Z)
    (w : World) :
  sense w = loopback_sense ext ->
  reg w cs GCR1 = 0xFF -> reg w cs OCR1 = 0x00 ->
  let w' := exec (drive_and_read_pin3 cs) w in
  eval (drive_and_read_pin3 cs) w = HIGH
  /\ reg w' cs GCR1 = 0xF7 /\ reg w' cs OCR1 = 0x08
  /\ (forall i, 0 <= i < 8 ->
        reg_bit w' cs GCR1 i = (if i =? 3 then false else reg_bit w cs GCR1 i)
        /\ reg_bit w' cs OCR1 i = (if i =? 3 then true else reg_bit w cs OCR1 i)).
Proof.
  intros Hdev HG HO w'.
  destruct (drive_and_read_pin3_run cs w HG HO) as (rf & evs & Hrun & HG' & HO').
  unfold w', eval, exec, reg_bit. rewrite Hrun. cbn [fst snd].
  rewrite !reg_after_frame. fold (byte_of rf cs GCR1). fold (byte_of rf cs OCR1).
  rewrite Hdev. unfold loopback_sense.
  change (reg_value GSR1 =? reg_value GSR1) with true. cbv beta iota zeta.
  rewrite HG', HO', HG, HO.
  rewrite Z.lor_spec, !Z.land_spec.
  change (Z.testbit 8 3) with true. change (Z.testbit (Z.lnot 247) 3) with true.
  cbn [andb orb Z.b2z].
  repeat split; try reflexivity.
  - assert (Hi : i = 0 \/ i = 1 \/ i = 2 \/ i = 3 \/ i = 4 \/ i = 5 \/ i = 6 \/ i = 7)
      by lia.
    destruct Hi as [->|[->|[->|[->|[->|[->|[->| ->]]]]]]]; reflexivity.
  - assert (Hi : i = 0 \/ i = 1 \/ i = 2 \/ i = 3 \/ i = 4 \/ i = 5 \/ i = 6 \/ i = 7)
      by lia.
    destruct Hi as [->|[->|[->|[->|[->|[->|[->| ->]]]]]]]; reflexivity.
Qed.

Lemma drive_and_read_pin3_returns_high_witness :
  let w := initial_world {[ (5, reg_value GCR1) := 0xFF;
                            (5, reg_value OCR1) := 0x00 ]} (loopback_sense 0) in
  let w' := exec (@drive_and_read_pin3 esp32_modes 5) w in
  eval (@drive_and_read_pin3 esp32_modes 5) w = HIGH
  /\ reg w' 5 GCR1 = 0xF7 /\ reg w' 5 OCR1 = 0x08
  /\ (forall i, 0 <= i < 8 ->
        reg_bit w' 5 GCR1 i = (if i =? 3 then false else reg_bit w 5 GCR1 i)
        /\ reg_bit w' 5 OCR1 i = (if i =? 3 then true else reg_bit w 5 OCR1 i)).
Proof.
  apply (drive_and_read_pin3_returns_high esp32_modes 5 0
           (initial_world {[ (5, reg_value GCR1) := 0xFF;
                             (5, reg_value OCR1) := 0x00 ]} (loopback_sense 0)));
    reflexivity.
Defined.

(** * Further properties of the driver *)

(** ** Bytes that differ in one bit *)

Section ByteAlgebra.

Implicit Types (v p q i : Z) (b : bool).

Lemma byte_ext x y :
  0 <= x < 256 -> 0 <= y < 256 ->
  (forall i, 0 <= i < 8 -> Z.testbit x i = Z.testbit y i) -> x = y.
Proof.
  intros Hx Hy Hbits. rewrite <- (u8_small x Hx), <- (u8_small y Hy).
  apply u8_bits_eq, Hbits.
Qed.

Lemma with_bit_range b v p : 0 <= with_bit b v p < 256.
Proof. apply u8_range. Qed.

(** Forcing the same bit twice: the second value stands. *)
Lemma with_bit_absorb b b' v p :
  0 <= p < 8 -> with_bit b (with_bit b' v p) p = with_bit b v p.
Proof.
  intros Hp. apply byte_ext; try apply with_bit_range.
  intros i Hi. rewrite !testbit_with_bit by lia.
  destruct (i =? p); reflexivity.
Qed.

(** Forcing two different bits: the order does not matter. *)
Lemma with_bit_comm b b' v p q :
  0 <= p < 8 -> 0 <= q < 8 -> p <> q ->
  with_bit b (with_bit b' v q) p = with_bit b' (with_bit b v p) q.
Proof.
  intros Hp Hq Hpq. apply byte_ext; try apply with_bit_range.
  intros i Hi. rewrite !testbit_with_bit by lia.
  destruct (Z.eqb_spec i p), (Z.eqb_spec i q); try reflexivity. lia.
Qed.

(** Forcing a bit to the value it has changes nothing. *)
Lemma with_bit_same b v p :
  0 <= p < 8 -> 0 <= v < 256 -> Z.testbit v p = b -> with_bit b v p = v.
Proof.
  intros Hp Hv Hb. apply byte_ext; [apply with_bit_range | exact Hv |].
  intros i Hi. rewrite testbit_with_bit by lia.
  destruct (Z.eqb_spec i p) as [->|]; [symmetry; exact Hb | reflexivity].
Qed.

Lemma testbit_0x7F i : 0 <= i -> Z.testbit 0x7F i = (i <? 7).
Proof. intros Hi. change 0x7F with (Z.ones 7). apply Z.testbit_ones_nonneg; lia. Qed.

Lemma testbit_0x80 i : Z.testbit 0x80 i = (i =? 7).
Proof.
  change 0x80 with (2 ^ 7). rewrite Z.pow2_bits_eqb by lia. apply Z.eqb_sym.
Qed.

Lemma testbit_setReadMode c i :
  0 <= i -> Z.testbit (setReadMode c) i = (i <? 8) && (Z.testbit c i || (i =? 7)).
Proof.
  intros Hi. unfold setReadMode, XRA1405_READ.
  rewrite testbit_u8, Z.lor_spec, testbit_0x80. reflexivity.
Qed.

Lemma testbit_setWriteMode c i :
  0 <= i -> Z.testbit (setWriteMode c) i = Z.testbit c i && (i <? 7).
Proof.
  intros Hi. unfold setWriteMode, XRA1405_WRITE.
  rewrite testbit_u8, Z.land_spec, testbit_0x7F by exact Hi.
  destruct (Z.ltb_spec i 8), (Z.ltb_spec i 7), (Z.testbit c i); try reflexivity; lia.
Qed.

End ByteAlgebra.

(** ** The direction flag on any command byte *)

(** The device decodes the same register from a command byte whichever
    direction flag it carries. *)
Lemma cmd_register_either (c : Z) :
  cmd_register (setReadMode c) = cmd_register (setWriteMode c).
Proof.
  unfold cmd_register. apply Z.bits_inj'. intros i Hi.
  rewrite !Z.land_spec, testbit_setReadMode, testbit_setWriteMode by lia.
  assert (H7E : Z.testbit 0x7E i = (0 <? i) && (i <? 7)).
  { change 0x7E with (Z.shiftl (Z.ones 6) 1).
    rewrite Z.shiftl_spec by lia.
    destruct (Z.ltb_spec 0 i) as [Hpos|Hzero].
    - rewrite Z.testbit_ones_nonneg by lia. cbn.
      destruct (Z.ltb_spec (i - 1) 6), (Z.ltb_spec i 7); try reflexivity; lia.
    - replace i with 0 by lia. reflexivity. }
  rewrite H7E.
  destruct (Z.ltb_spec i 8), (Z.ltb_spec i 7), (Z.eqb_spec i 7),
    (Z.ltb_spec 0 i), (Z.testbit c i); try reflexivity; lia.
Qed.

(** X1. For every command byte, whether or not it names a register of the
    enumeration: [setReadMode] sets bit 7 and [setWriteMode] clears it,
    both keep bits 0 to 6, each undoes the other's flag, and both address
    the same register of the device. *)
Theorem direction_flag_round_trip (c : Z) :
  Z.testbit (setReadMode c) 7 = true
  /\ Z.testbit (setWriteMode c) 7 = false
  /\ (forall i, 0 <= i < 7 ->
        Z.testbit (setReadMode c) i = Z.testbit c i
        /\ Z.testbit (setWriteMode c) i = Z.testbit c i)
  /\ setWriteMode (setReadMode c) = setWriteMode c
  /\ setReadMode (setWriteMode c) = setReadMode c
  /\ cmd_register (setReadMode c) = cmd_register (setWriteMode c).
Proof.
  repeat split.
  - rewrite testbit_setReadMode by lia. cbn. apply orb_true_r.
  - rewrite testbit_setWriteMode by lia. cbn. apply andb_false_r.
  - rewrite testbit_setReadMode by lia.
    replace (i <? 8) with true by (symmetry; apply Z.ltb_lt; lia).
    replace (i =? 7) with false by (symmetry; apply Z.eqb_neq; lia).
    cbn. apply orb_false_r.
  - rewrite testbit_setWriteMode by lia.
    replace (i <? 7) with true by (symmetry; apply Z.ltb_lt; lia).
    apply andb_true_r.
  - apply byte_ext; try apply u8_range. intros i Hi.
    rewrite !testbit_setWriteMode, testbit_setReadMode by lia.
    destruct (Z.ltb_spec i 8), (Z.ltb_spec i 7), (Z.eqb_spec i 7),
      (Z.testbit c i); try reflexivity; lia.
  - apply byte_ext; try apply u8_range. intros i Hi.
    rewrite !testbit_setReadMode, testbit_setWriteMode by lia.
    destruct (Z.ltb_spec i 8), (Z.ltb_spec i 7), (Z.eqb_spec i 7),
      (Z.testbit c i); try reflexivity; lia.
  - apply cmd_register_either.
Qed.

(** ** Initialisation *)

Lemma begin_run (sck miso mosi freq : Z) (w : World) :
  let f := if (freq <? 24000000) || (freq >? 26000000)
           then XRA1405_SPI_CLOCK else freq in
  XRA1405_begin sck miso mosi freq w
  = (tt, mkWorld (Some (sck, miso, mosi, -1)) f (bus_order w) (bus_mode w)
           (selected w) (latched w) (regs w) (sense w)
           (trace w ++ [EvSpiBegin sck miso mosi (-1); EvSetFrequency f])).
Proof.
  unfold XRA1405_begin, bind, SPI_begin, SPI_setFrequency, log, set_bus. cbn.
  rewrite <- app_assoc. reflexivity.
Qed.

(** X2. Whatever frequency it is given, [XRA1405_begin] makes exactly two
    calls, [SPI.begin] with the three pins it was given and no
    slave-select pin (-1), then [SPI.setFrequency] with a frequency
    between 24000000 and 26000000, which is the clock that call leaves
    the bus with; it starts no transaction and touches no register and no
    chip-select line. *)
Theorem begin_clamps (sck miso mosi freq : Z) (w : World) :
  let w' := exec (XRA1405_begin sck miso mosi freq) w in
  24000000 <= bus_clock w' <= 26000000
  /\ emitted (XRA1405_begin sck miso mosi freq) w
     = [EvSpiBegin sck miso mosi (-1); EvSetFrequency (bus_clock w')]
  /\ regs w' = regs w
  /\ selected w' = selected w
  /\ transactions (emitted (XRA1405_begin sck miso mosi freq) w) = 0%nat
  /\ transfer_clocks (emitted (XRA1405_begin sck miso mosi freq) w) = [].
Proof.
  intros w'. unfold w', emitted, exec. rewrite begin_run. cbn [snd].
  cbn [bus_clock bus_pins regs selected trace].
  rewrite drop_app_length.
  split; [|split; [|split; [|split; [|split]]]]; try reflexivity.
  destruct (Z.ltb_spec freq 24000000) as [Hlo|Hlo]; cbn [orb];
    [unfold XRA1405_SPI_CLOCK; lia|].
  destruct (freq >? 26000000) eqn:Hgt; [unfold XRA1405_SPI_CLOCK; lia|].
  rewrite Z.gtb_ltb in Hgt. apply Z.ltb_ge in Hgt. lia.
Qed.

(** ** Reading *)

(** X3. For every pin argument, [XRA1405_digitalRead] returns 0 or 1: bit
    [pin mod 8] of what the device reports for the state register, GSR1
    when the pin is below 8 and GSR2 otherwise. It costs one transaction
    and changes no register. *)
Theorem digitalRead_reports_state_bit (cs pin : Z) (w : World) :
  let R := if pin <? 8 then GSR1 else GSR2 in
  eval (XRA1405_digitalRead cs pin) w
  = Z.b2z (Z.testbit (sense w (regs w) cs (reg_value R)) (pin mod 8))
  /\ (eval (XRA1405_digitalRead cs pin) w = LOW
      \/ eval (XRA1405_digitalRead cs pin) w = HIGH)
  /\ regs (exec (XRA1405_digitalRead cs pin) w) = regs w
  /\ transactions (emitted (XRA1405_digitalRead cs pin) w) = 1%nat.
Proof.
  intros R. pose proof (bit_index_range pin) as Hp.
  pose proof (digitalRead_run cs pin w) as Hrun. cbv zeta in Hrun. fold R in Hrun.
  assert (Hval : eval (XRA1405_digitalRead cs pin) w
                 = Z.b2z (Z.testbit (sense w (regs w) cs (reg_value R)) (pin mod 8))).
  { unfold eval. rewrite Hrun. cbn [fst]. rewrite read_level, testbit_u8 by lia.
    replace (pin mod 8 <? 8) with true by (symmetry; apply Z.ltb_lt; lia).
    reflexivity. }
  split; [exact Hval|]. split; [|split].
  - rewrite Hval. destruct (Z.testbit _ _); [right | left]; reflexivity.
  - unfold exec. rewrite Hrun. reflexivity.
  - rewrite (emitted_after_frame _ _ _ _ _ Hrun). reflexivity.
Qed.


(** ** What each operation does to the latches *)

Section Latched.

Context `{PinModes}.
Implicit Types (w : World) (cs pin mode value p : Z).

Lemma exec_seq {A B} (m : M A) (k : M B) w :
  exec (m ;;; k) w = exec k (exec m w).
Proof. unfold exec, bind. destruct (m w). reflexivity. Qed.

Lemma byte_of_range (rf : RegFile) cs (r : XRA1405_Register) :
  0 <= byte_of rf cs r < 256.
Proof. apply u8_range. Qed.

(** A register read through one write, on any device. *)
Lemma byte_of_insert (rf : RegFile) cs (x : XRA1405_Register) (v c : Z)
    (r : XRA1405_Register) :
  byte_of (<[(cs, reg_value x) := v]> rf) c r
  = if decide (cs = c /\ x = r) then u8 v else byte_of rf c r.
Proof.
  unfold byte_of, latch. destruct (decide (cs = c /\ x = r)) as [[-> ->]|Hne].
  - rewrite lookup_insert_eq. reflexivity.
  - rewrite lookup_insert_ne; [reflexivity|].
    intros [= Hc Hr]. apply Hne. split; [exact Hc | apply reg_value_inj, Hr].
Qed.

Lemma digitalWrite_regs cs pin value w :
  let R := if pin <? 8 then OCR1 else OCR2 in
  regs (exec (XRA1405_digitalWrite cs pin value) w)
  = <[(cs, reg_value R) :=
        with_bit (value =? HIGH) (byte_of (regs w) cs R) (pin mod 8)]> (regs w).
Proof. unfold exec. rewrite digitalWrite_run. reflexivity. Qed.

Lemma setPullUp_regs cs pin (enabled : bool) w :
  let R := if pin <? 8 then PUR1 else PUR2 in
  regs (exec (XRA1405_setPullUp cs pin enabled) w)
  = <[(cs, reg_value R) :=
        with_bit enabled (byte_of (regs w) cs R) (pin mod 8)]> (regs w).
Proof. unfold exec. rewrite setPullUp_run. reflexivity. Qed.

Lemma pinMode_regs cs pin mode w :
  let R := if pin <? 8 then GCR1 else GCR2 in
  let rf := <[(cs, reg_value R) :=
                with_bit (negb (mode =? OUTPUT)) (byte_of (regs w) cs R)
                         (pin mod 8)]> (regs w) in
  regs (exec (XRA1405_pinMode cs pin mode) w)
  = if mode =? INPUT_PULLUP
    then <[(cs, reg_value PUR1) :=
             with_bit true (byte_of (regs w) cs PUR1) (pin mod 8)]> rf
    else rf.
Proof.
  unfold exec. rewrite pinMode_run. destruct (mode =? INPUT_PULLUP); reflexivity.
Qed.

Lemma setInterrupt_regs cs pin (t : XRA1405_InterruptType) w :
  let IR := if pin <? 8 then IER1 else IER2 in
  let enR := bool_decide (t = INTERRUPT_RISING)
             || bool_decide (t = INTERRUPT_BOTH) in
  let enF := bool_decide (t = INTERRUPT_FALLING)
             || bool_decide (t = INTERRUPT_BOTH) in
  regs (exec (XRA1405_setInterrupt cs pin t) w)
  = <[(cs, reg_value FEIR1) :=
        with_bit enF (byte_of (regs w) cs FEIR1) (pin mod 8)]>
      (<[(cs, reg_value REIR1) :=
           with_bit enR (byte_of (regs w) cs REIR1) (pin mod 8)]>
         (<[(cs, reg_value IR) :=
              with_bit true (byte_of (regs w) cs IR) (pin mod 8)]> (regs w))).
Proof. unfold exec. rewrite setInterrupt_run. reflexivity. Qed.

Lemma reg_byte_of w cs (r : XRA1405_Register) : reg w cs r = byte_of (regs w) cs r.
Proof. reflexivity. Qed.

End Latched.

(** Turns the registers after one or more operations into the writes made. *)
Ltac written :=
  rewrite ?reg_byte_of;
  rewrite ?exec_seq;
  rewrite ?digitalWrite_regs, ?setPullUp_regs, ?pinMode_regs, ?setInterrupt_regs;
  cbv zeta.

(** Reads a register through those writes. *)
Ltac read_back :=
  repeat (rewrite byte_of_insert;
          match goal with
          | |- context [decide (?c = ?c' /\ ?x = ?y)] =>
              destruct (decide (c = c' /\ x = y)) as [[? ?]|?]
          end;
          try discriminate; try tauto; try congruence);
  rewrite ?with_bit_u8.

(** ** Writing a level *)

(** X5. For every pin 0 to 15 and every value, [XRA1405_digitalWrite]
    leaves bit [pin mod 8] of the output-control register of the pin's
    bank (OCR1 below 8, OCR2 from 8) at 1 exactly when the value equals
    HIGH; every other value, non-zero ones included, drives the pin low.
    The output-control register of the other bank keeps its byte. *)
Theorem digitalWrite_drives_pin (cs pin value : Z) (w : World) :
  0 <= pin < 16 ->
  let w' := exec (XRA1405_digitalWrite cs pin value) w in
  let R := if pin <? 8 then OCR1 else OCR2 in
  let R' := if pin <? 8 then OCR2 else OCR1 in
  reg_bit w' cs R (pin mod 8) = (value =? HIGH)
  /\ (value <> HIGH -> reg_bit w' cs R (pin mod 8) = false)
  /\ reg w' cs R' = reg w cs R'.
Proof.
  intros Hpin w' R R'. pose proof (bit_index_range pin) as Hp.
  assert (Hbit : reg_bit w' cs R (pin mod 8) = (value =? HIGH)).
  { unfold reg_bit, w', R. written. destruct (pin <? 8); read_back;
      rewrite testbit_with_bit, Z.eqb_refl by lia; reflexivity. }
  split; [exact Hbit|]. split.
  - intros Hne. rewrite Hbit. apply Z.eqb_neq, Hne.
  - unfold w', R'. written. destruct (pin <? 8); read_back; reflexivity.
Qed.

Lemma digitalWrite_drives_pin_witness :
  let w := initial_world {[ (5, reg_value OCR2) := 0xFF ]} held_low_sense in
  let w' := exec (XRA1405_digitalWrite 5 11 2) w in
  reg_bit w' 5 OCR2 (11 mod 8) = (2 =? HIGH)
  /\ (2 <> HIGH -> reg_bit w' 5 OCR2 (11 mod 8) = false)
  /\ reg w' 5 OCR1 = reg w 5 OCR1.
Proof.
  apply (digitalWrite_drives_pin 5 11 2
           (initial_world {[ (5, reg_value OCR2) := 0xFF ]} held_low_sense)).
  lia.
Defined.

(** X6. Two calls of [XRA1405_digitalWrite] on the same pin leave the
    latches as the second call alone does, and so do two calls of
    [XRA1405_setPullUp]: the last write wins, and repeating a call changes
    nothing more. *)
Theorem last_write_wins (cs pin value1 value2 : Z) (enabled1 enabled2 : bool)
    (w : World) :
  regs (exec (XRA1405_digitalWrite cs pin value1 ;;;
              XRA1405_digitalWrite cs pin value2) w)
  = regs (exec (XRA1405_digitalWrite cs pin value2) w)
  /\ regs (exec (XRA1405_setPullUp cs pin enabled1 ;;;
                 XRA1405_setPullUp cs pin enabled2) w)
     = regs (exec (XRA1405_setPullUp cs pin enabled2) w).
Proof.
  pose proof (bit_index_range pin) as Hp.
  split; written; rewrite byte_of_insert, decide_True by (split; reflexivity);
    rewrite with_bit_u8, with_bit_absorb by exact Hp;
    apply insert_insert_eq.
Qed.

(** X7. Calls of [XRA1405_digitalWrite] on two different pins 0 to 15
    commute: in either order the latches end the same, whether the two
    pins share an output-control register or not. *)
Theorem digitalWrite_commutes (cs pin1 pin2 value1 value2 : Z) (w : World) :
  0 <= pin1 < 16 -> 0 <= pin2 < 16 -> pin1 <> pin2 ->
  regs (exec (XRA1405_digitalWrite cs pin1 value1 ;;;
              XRA1405_digitalWrite cs pin2 value2) w)
  = regs (exec (XRA1405_digitalWrite cs pin2 value2 ;;;
                XRA1405_digitalWrite cs pin1 value1) w).
Proof.
  intros H1 H2 Hne.
  pose proof (bit_index_range pin1) as Hp1.
  pose proof (bit_index_range pin2) as Hp2.
  written.
  destruct (Z.ltb_spec pin1 8) as [Hb1|Hb1], (Z.ltb_spec pin2 8) as [Hb2|Hb2].
  - assert (Hbits : pin1 mod 8 <> pin2 mod 8)
      by (rewrite !Z.mod_small by lia; exact Hne).
    rewrite !byte_of_insert, !decide_True by (split; reflexivity).
    rewrite !with_bit_u8, !insert_insert_eq.
    rewrite (with_bit_comm _ _ _ (pin2 mod 8) (pin1 mod 8)) by auto.
    reflexivity.
  - rewrite !byte_of_insert, !decide_False by (intros [_ [=]]).
    apply insert_insert_ne. intros [=].
  - rewrite !byte_of_insert, !decide_False by (intros [_ [=]]).
    apply insert_insert_ne. intros [=].
  - assert (Hbits : pin1 mod 8 <> pin2 mod 8).
    { replace pin1 with (pin1 - 8 + 1 * 8) by lia.
      replace pin2 with (pin2 - 8 + 1 * 8) by lia.
      rewrite !Z.mod_add, !Z.mod_small by lia. lia. }
    rewrite !byte_of_insert, !decide_True by (split; reflexivity).
    rewrite !with_bit_u8, !insert_insert_eq.
    rewrite (with_bit_comm _ _ _ (pin2 mod 8) (pin1 mod 8)) by auto.
    reflexivity.
Qed.

Lemma digitalWrite_commutes_witness :
  regs (exec (XRA1405_digitalWrite 5 3 HIGH ;;; XRA1405_digitalWrite 5 4 LOW)
             (initial_world {[ (5, reg_value OCR1) := 0x10 ]} held_low_sense))
  = regs (exec (XRA1405_digitalWrite 5 4 LOW ;;; XRA1405_digitalWrite 5 3 HIGH)
               (initial_world {[ (5, reg_value OCR1) := 0x10 ]} held_low_sense)).
Proof.
  apply (digitalWrite_commutes 5 3 4 HIGH LOW
           (initial_world {[ (5, reg_value OCR1) := 0x10 ]} held_low_sense));
    lia.
Defined.

(** ** Pin direction and pull-up *)

(** X8. For every pin 0 to 15, [XRA1405_pinMode] clears bit [pin mod 8]
    of the configuration register of the pin's bank (GCR1 below 8, GCR2
    from 8) when the mode equals OUTPUT and sets it for every other mode
    value, known or not; unless the mode is INPUT_PULLUP no other
    register of the device changes. *)
Theorem pinMode_configures (modes : PinModes) (cs pin mode : Z) (w : World) :
  0 <= pin < 16 ->
  let w' := exec (XRA1405_pinMode cs pin mode) w in
  let R := if pin <? 8 then GCR1 else GCR2 in
  reg_bit w' cs R (pin mod 8) = negb (mode =? OUTPUT)
  /\ (mode <> INPUT_PULLUP -> forall r, r <> R -> reg w' cs r = reg w cs r).
Proof.
  intros Hpin w' R. pose proof (bit_index_range pin) as Hp. split.
  - unfold reg_bit, w', R. written.
    destruct (pin <? 8), (mode =? INPUT_PULLUP); read_back;
      rewrite testbit_with_bit, Z.eqb_refl by lia; reflexivity.
  - intros Hmode r Hr. unfold w', R in *. written.
    replace (mode =? INPUT_PULLUP) with false by (symmetry; apply Z.eqb_neq, Hmode).
    destruct (pin <? 8); read_back; reflexivity.
Qed.

Lemma pinMode_configures_witness :
  let w := initial_world {[ (5, reg_value GCR2) := 0xFF ]} held_low_sense in
  let w' := exec (@XRA1405_pinMode esp32_modes 5 12 (@OUTPUT esp32_modes)) w in
  reg_bit w' 5 GCR2 (12 mod 8)
  = negb (@OUTPUT esp32_modes =? @OUTPUT esp32_modes)
  /\ (@OUTPUT esp32_modes <> @INPUT_PULLUP esp32_modes ->
      forall r, r <> GCR2 -> reg w' 5 r = reg w 5 r).
Proof.
  apply (pinMode_configures esp32_modes 5 12 (@OUTPUT esp32_modes)
           (initial_world {[ (5, reg_value GCR2) := 0xFF ]} held_low_sense)).
  lia.
Defined.

(** X9. When INPUT and OUTPUT are different mode values: for every pin 0
    to 15, making the pin an output and then an input leaves its
    configuration bit at 1, and gives the configuration register back
    byte for byte when the pin was an input before; the other way round,
    input then output, leaves the bit at 0 and gives the register back
    when the pin was an output before. *)
Theorem pinMode_round_trip (modes : PinModes) (cs pin : Z) (w : World) :
  0 <= pin < 16 -> INPUT <> OUTPUT ->
  let R := if pin <? 8 then GCR1 else GCR2 in
  let out_in := exec (XRA1405_pinMode cs pin OUTPUT ;;;
                      XRA1405_pinMode cs pin INPUT) w in
  let in_out := exec (XRA1405_pinMode cs pin INPUT ;;;
                      XRA1405_pinMode cs pin OUTPUT) w in
  reg_bit out_in cs R (pin mod 8) = true
  /\ reg_bit in_out cs R (pin mod 8) = false
  /\ (reg_bit w cs R (pin mod 8) = true -> reg out_in cs R = reg w cs R)
  /\ (reg_bit w cs R (pin mod 8) = false -> reg in_out cs R = reg w cs R).
Proof.
  intros Hpin Hio R out_in in_out. pose proof (bit_index_range pin) as Hp.
  assert (Hin : (INPUT =? OUTPUT) = false) by (apply Z.eqb_neq, Hio).
  unfold reg_bit, out_in, in_out, R. written. rewrite Hin, Z.eqb_refl. cbn [negb].
  destruct (pin <? 8), (OUTPUT =? INPUT_PULLUP), (INPUT =? INPUT_PULLUP);
    read_back; rewrite !with_bit_absorb by exact Hp;
    rewrite !testbit_with_bit, Z.eqb_refl by lia;
    (repeat split; try reflexivity; intros Hbit;
     (apply with_bit_same; [exact Hp | apply byte_of_range | exact Hbit])).
Qed.

Lemma pinMode_round_trip_witness :
  let w := initial_world {[ (5, reg_value GCR1) := 0xFF ]} held_low_sense in
  let out_in := exec (@XRA1405_pinMode esp32_modes 5 3 (@OUTPUT esp32_modes) ;;;
                      @XRA1405_pinMode esp32_modes 5 3 (@INPUT esp32_modes)) w in
  let in_out := exec (@XRA1405_pinMode esp32_modes 5 3 (@INPUT esp32_modes) ;;;
                      @XRA1405_pinMode esp32_modes 5 3 (@OUTPUT esp32_modes)) w in
  reg_bit out_in 5 GCR1 (3 mod 8) = true
  /\ reg_bit in_out 5 GCR1 (3 mod 8) = false
  /\ (reg_bit w 5 GCR1 (3 mod 8) = true -> reg out_in 5 GCR1 = reg w 5 GCR1)
  /\ (reg_bit w 5 GCR1 (3 mod 8) = false -> reg in_out 5 GCR1 = reg w 5 GCR1).
Proof.
  apply (pinMode_round_trip esp32_modes 5 3
           (initial_world {[ (5, reg_value GCR1) := 0xFF ]} held_low_sense)).
  - lia.
  - vm_compute. discriminate.
Defined.

(** X10. [XRA1405_pinMode] never switches a pull-up off: for every pin
    and every mode, each bit of PUR1 and of PUR2 that was 1 is still 1
    afterwards, so a pin that goes from INPUT_PULLUP to INPUT or OUTPUT
    keeps its pull-up. *)
Theorem pinMode_keeps_pull_ups (modes : PinModes) (cs pin mode : Z)
    (w : World) (r : XRA1405_Register) (i : Z) :
  r = PUR1 \/ r = PUR2 -> 0 <= i < 8 ->
  reg_bit w cs r i = true ->
  reg_bit (exec (XRA1405_pinMode cs pin mode) w) cs r i = true.
Proof.
  intros Hr Hi Hbit. pose proof (bit_index_range pin) as Hp.
  unfold reg_bit in *. written. rewrite reg_byte_of in Hbit.
  destruct Hr as [-> | ->];
    destruct (pin <? 8), (mode =? INPUT_PULLUP); read_back;
    rewrite ?testbit_with_bit by lia; rewrite ?Hbit;
    try destruct (i =? pin mod 8); reflexivity.
Qed.

Lemma pinMode_keeps_pull_ups_witness :
  reg_bit (exec (@XRA1405_pinMode esp32_modes 5 2 (@INPUT esp32_modes))
                (initial_world {[ (5, reg_value PUR1) := 0x04 ]} held_low_sense))
          5 PUR1 2 = true.
Proof.
  apply (pinMode_keeps_pull_ups esp32_modes 5 2 (@INPUT esp32_modes)
           (initial_world {[ (5, reg_value PUR1) := 0x04 ]} held_low_sense)
           PUR1 2).
  - left. reflexivity.
  - lia.
  - reflexivity.
Defined.

(** X11. For every pin 0 to 7, [XRA1405_pinMode] with INPUT_PULLUP sets
    the pin's pull-up bit in PUR1 and, INPUT_PULLUP not being OUTPUT,
    makes the pin an input in GCR1; PUR2 and GCR2 keep their bytes, and
    the call costs four transactions. *)
Theorem pinMode_pullup_low_pins (modes : PinModes) (cs pin : Z) (w : World) :
  0 <= pin < 8 -> INPUT_PULLUP <> OUTPUT ->
  let w' := exec (XRA1405_pinMode cs pin INPUT_PULLUP) w in
  reg_bit w' cs PUR1 pin = true
  /\ reg_bit w' cs GCR1 pin = true
  /\ reg w' cs PUR2 = reg w cs PUR2
  /\ reg w' cs GCR2 = reg w cs GCR2
  /\ transactions (emitted (XRA1405_pinMode cs pin INPUT_PULLUP) w) = 4%nat.
Proof.
  intros Hpin Hmode w'.
  assert (Hb : (pin <? 8) = true) by (apply Z.ltb_lt; lia).
  assert (Hm : pin mod 8 = pin) by (apply Z.mod_small; lia).
  assert (Ho : (INPUT_PULLUP =? OUTPUT) = false) by (apply Z.eqb_neq, Hmode).
  pose proof (pinMode_run cs pin INPUT_PULLUP w) as Hrun. cbv zeta in Hrun.
  rewrite Z.eqb_refl in Hrun.
  rewrite (emitted_after_frame _ _ _ _ _ Hrun).
  unfold reg_bit, w'. written. rewrite Z.eqb_refl, Hb, Hm, Ho. cbn [negb].
  repeat split; read_back; rewrite ?testbit_with_bit, ?Z.eqb_refl by lia;
    reflexivity.
Qed.

Lemma pinMode_pullup_low_pins_witness :
  let w := initial_world ∅ held_low_sense in
  let w' := exec (@XRA1405_pinMode esp32_modes 5 6 (@INPUT_PULLUP esp32_modes)) w in
  reg_bit w' 5 PUR1 6 = true
  /\ reg_bit w' 5 GCR1 6 = true
  /\ reg w' 5 PUR2 = reg w 5 PUR2
  /\ reg w' 5 GCR2 = reg w 5 GCR2
  /\ transactions
       (emitted (@XRA1405_pinMode esp32_modes 5 6 (@INPUT_PULLUP esp32_modes)) w)
     = 4%nat.
Proof.
  apply (pinMode_pullup_low_pins esp32_modes 5 6 (initial_world ∅ held_low_sense)).
  - lia.
  - vm_compute. discriminate.
Defined.

(** X12. For every pin 0 to 15, [XRA1405_setPullUp] leaves bit
    [pin mod 8] of the pull-up register of the pin's bank (PUR1 below 8,
    PUR2 from 8) equal to [enabled], and changes no other register of the
    device: the direction and the output level of the pin stay as they
    were. *)
Theorem setPullUp_sets_bank_bit (cs pin : Z) (enabled : bool) (w : World) :
  0 <= pin < 16 ->
  let w' := exec (XRA1405_setPullUp cs pin enabled) w in
  let R := if pin <? 8 then PUR1 else PUR2 in
  reg_bit w' cs R (pin mod 8) = enabled
  /\ (forall r, r <> R -> reg w' cs r = reg w cs r).
Proof.
  intros Hpin w' R. pose proof (bit_index_range pin) as Hp. split.
  - unfold reg_bit, w', R. written. destruct (pin <? 8); read_back;
      rewrite testbit_with_bit, Z.eqb_refl by lia; reflexivity.
  - intros r Hr. unfold w', R in *. written.
    destruct (pin <? 8); read_back; reflexivity.
Qed.

Lemma setPullUp_sets_bank_bit_witness :
  let w := initial_world {[ (5, reg_value PUR2) := 0xFF ]} held_low_sense in
  let w' := exec (XRA1405_setPullUp 5 9 false) w in
  reg_bit w' 5 PUR2 (9 mod 8) = false
  /\ (forall r, r <> PUR2 -> reg w' 5 r = reg w 5 r).
Proof.
  apply (setPullUp_sets_bank_bit 5 9 false
           (initial_world {[ (5, reg_value PUR2) := 0xFF ]} held_low_sense)).
  lia.
Defined.

(** X13. A change of one pin can be undone: after [XRA1405_setPullUp]
    with any setting, a second call with the setting the pin had before
    gives every register of every device its byte back; the same holds
    for [XRA1405_digitalWrite] with the level the pin had before. *)
Theorem single_pin_change_undone (cs pin value : Z) (enabled : bool)
    (w : World) (c : Z) (r : XRA1405_Register) :
  let PR := if pin <? 8 then PUR1 else PUR2 in
  let OR := if pin <? 8 then OCR1 else OCR2 in
  let level := if reg_bit w cs OR (pin mod 8) then HIGH else LOW in
  reg (exec (XRA1405_setPullUp cs pin enabled ;;;
             XRA1405_setPullUp cs pin (reg_bit w cs PR (pin mod 8))) w) c r
  = reg w c r
  /\ reg (exec (XRA1405_digitalWrite cs pin value ;;;
                XRA1405_digitalWrite cs pin level) w) c r
     = reg w c r.
Proof.
  intros PR OR level. pose proof (bit_index_range pin) as Hp.
  assert (Hlevel : (level =? HIGH) = reg_bit w cs OR (pin mod 8))
    by (unfold level; destruct (reg_bit w cs OR (pin mod 8)); reflexivity).
  unfold reg_bit in *. rewrite reg_byte_of in Hlevel.
  split; written; fold PR OR; rewrite ?Hlevel;
    read_back; subst; rewrite ?with_bit_absorb by exact Hp;
    try (apply with_bit_same; [exact Hp | apply byte_of_range | reflexivity]);
    reflexivity.
Qed.

(** ** Interrupts *)

(** X14. [XRA1405_setInterrupt] never disarms a pin: for every pin and
    every mode, INTERRUPT_DISABLE included, each bit of IER1 and of IER2
    that was 1 is still 1 afterwards, and for pins 0 to 15 the bit of the
    pin itself, in the register of its bank, is 1. *)
Theorem setInterrupt_never_disarms (cs pin : Z) (t : XRA1405_InterruptType)
    (w : World) (r : XRA1405_Register) (i : Z) :
  r = IER1 \/ r = IER2 -> 0 <= i < 8 ->
  let w' := exec (XRA1405_setInterrupt cs pin t) w in
  (reg_bit w cs r i = true -> reg_bit w' cs r i = true)
  /\ reg_bit w' cs (if pin <? 8 then IER1 else IER2) (pin mod 8) = true.
Proof.
  intros Hr Hi w'. pose proof (bit_index_range pin) as Hp.
  unfold reg_bit, w'. written. split.
  - intros Hbit.
    destruct Hr as [-> | ->]; destruct (pin <? 8); read_back;
      rewrite ?testbit_with_bit by lia; rewrite ?Hbit;
      try destruct (i =? pin mod 8); reflexivity.
  - destruct (pin <? 8); read_back;
      rewrite testbit_with_bit, Z.eqb_refl by lia; reflexivity.
Qed.

Lemma setInterrupt_never_disarms_witness :
  let w := initial_world {[ (5, reg_value IER1) := 0x21 ]} held_low_sense in
  let w' := exec (XRA1405_setInterrupt 5 0 INTERRUPT_DISABLE) w in
  (reg_bit w 5 IER1 5 = true -> reg_bit w' 5 IER1 5 = true)
  /\ reg_bit w' 5 (if 0 <? 8 then IER1 else IER2) (0 mod 8) = true.
Proof.
  apply (setInterrupt_never_disarms 5 0 INTERRUPT_DISABLE
           (initial_world {[ (5, reg_value IER1) := 0x21 ]} held_low_sense)
           IER1 5).
  - left. reflexivity.
  - lia.
Defined.

(** X15. For every pin 0 to 7 the four interrupt modes give the four
    settings of the pin's two edge bits: disabled clears both, rising
    sets only the rising-edge bit, falling only the falling-edge bit,
    both sets both; in every mode the pin's interrupt-enable bit ends
    at 1. *)
Theorem setInterrupt_mode_table (cs pin : Z) (w : World) :
  0 <= pin < 8 ->
  let edges t :=
    let w' := exec (XRA1405_setInterrupt cs pin t) w in
    (reg_bit w' cs IER1 pin, reg_bit w' cs REIR1 pin, reg_bit w' cs FEIR1 pin) in
  edges INTERRUPT_DISABLE = (true, false, false)
  /\ edges INTERRUPT_RISING = (true, true, false)
  /\ edges INTERRUPT_FALLING = (true, false, true)
  /\ edges INTERRUPT_BOTH = (true, true, true).
Proof.
  intros Hpin edges. unfold edges.
  repeat split;
    match goal with
    | |- context [XRA1405_setInterrupt cs pin ?t] =>
        destruct (setInterrupt_low_pins cs pin t w Hpin) as (-> & -> & ->)
    end; reflexivity.
Qed.

Lemma setInterrupt_mode_table_witness :
  let w := initial_world {[ (5, reg_value REIR1) := 0xFF ]} held_low_sense in
  let edges t :=
    let w' := exec (XRA1405_setInterrupt 5 4 t) w in
    (reg_bit w' 5 IER1 4, reg_bit w' 5 REIR1 4, reg_bit w' 5 FEIR1 4) in
  edges INTERRUPT_DISABLE = (true, false, false)
  /\ edges INTERRUPT_RISING = (true, true, false)
  /\ edges INTERRUPT_FALLING = (true, false, true)
  /\ edges INTERRUPT_BOTH = (true, true, true).
Proof.
  apply (setInterrupt_mode_table 5 4
           (initial_world {[ (5, reg_value REIR1) := 0xFF ]} held_low_sense)).
  lia.
Defined.

(** X16. Two calls of [XRA1405_setInterrupt] on the same pin leave the
    latches as the second call alone does: the last mode wins, for every
    pin and every pair of modes. *)
Theorem setInterrupt_last_mode_wins (cs pin : Z)
    (t1 t2 : XRA1405_InterruptType) (w : World) :
  regs (exec (XRA1405_setInterrupt cs pin t1 ;;;
              XRA1405_setInterrupt cs pin t2) w)
  = regs (exec (XRA1405_setInterrupt cs pin t2) w).
Proof.
  pose proof (bit_index_range pin) as Hp.
  written. destruct (pin <? 8); read_back;
    rewrite !with_bit_absorb by exact Hp;
    apply map_eq; intros k; rewrite !lookup_insert;
    repeat case_decide; congruence.
Qed.

(** ** Several devices, several calls *)

Section Composition.

Context `{PinModes}.
Implicit Types (w : World) (cs pin : Z) (o : Operation) (os : list Operation).

Lemma exec_bind {A B} (m : M A) (f : A -> M B) w :
  exec (bind m f) w = exec (f (eval m w)) (exec m w).
Proof. unfold exec, eval, bind. destruct (m w). reflexivity. Qed.

Lemma exec_ret {A} (a : A) w : exec (ret a) w = w.
Proof. reflexivity. Qed.

Lemma digitalRead_regs cs pin w :
  regs (exec (XRA1405_digitalRead cs pin) w) = regs w.
Proof. unfold exec. rewrite digitalRead_run. reflexivity. Qed.

Lemma clearInterrupts_regs cs w :
  regs (exec (XRA1405_clearInterrupts cs) w) = regs w.
Proof. unfold exec. rewrite clearInterrupts_run. reflexivity. Qed.

Lemma emitted_exec {A} (m : M A) w (rf : RegFile) (evs : list Event) :
  exec m w = after_frame w rf evs -> emitted m w = evs.
Proof.
  intros Hrun. unfold emitted. rewrite Hrun. cbn. apply drop_app_length.
Qed.

Lemma perform_exec cs o w :
  exists (rf : RegFile) (evs : list Event),
    exec (perform cs o) w = after_frame w rf evs /\ Frames cs evs.
Proof.
  destruct (perform_frames cs o w) as (a & rf & evs & Hrun & Hfr).
  exists rf, evs. unfold exec. rewrite Hrun. split; [reflexivity | exact Hfr].
Qed.

(** A non-empty program leaves the bus between two frames. *)
Lemma perform_all_exec cs os w :
  os <> [] ->
  exists (rf : RegFile) (evs : list Event),
    exec (perform_all cs os) w = after_frame w rf evs /\ Frames cs evs.
Proof.
  revert w. induction os as [|o os IH]; intros w Hne; [contradiction|].
  cbn [perform_all]. rewrite exec_seq.
  destruct (perform_exec cs o w) as (rf1 & e1 & Hrun1 & Hfr1). rewrite Hrun1.
  destruct os as [|o' os'].
  - exists rf1, e1. split; [reflexivity | exact Hfr1].
  - destruct (IH (after_frame w rf1 e1)) as (rf2 & e2 & Hrun2 & Hfr2);
      [discriminate|].
    exists rf2, (e1 ++ e2). rewrite Hrun2, after_frame_twice.
    split; [reflexivity | apply Frames_app; assumption].
Qed.

End Composition.

(** X17. An operation on the device of one chip-select line changes no
    register of a device on another line: every byte written goes to the
    device whose line the operation was given. *)
Theorem other_devices_untouched (modes : PinModes) (cs cs' : Z)
    (o : Operation) (w : World) (r : XRA1405_Register) :
  cs <> cs' -> reg (exec (perform cs o) w) cs' r = reg w cs' r.
Proof.
  intros Hne.
  destruct o as [pin mode|pin value|pin|pin enabled|pin t|];
    unfold perform; rewrite exec_bind, exec_ret.
  - written. destruct (pin <? 8), (mode =? INPUT_PULLUP); read_back; reflexivity.
  - written. destruct (pin <? 8); read_back; reflexivity.
  - rewrite reg_byte_of, digitalRead_regs. reflexivity.
  - written. destruct (pin <? 8); read_back; reflexivity.
  - written. destruct (pin <? 8); read_back; reflexivity.
  - rewrite reg_byte_of, clearInterrupts_regs. reflexivity.
Qed.

Lemma other_devices_untouched_witness :
  reg (exec (@perform esp32_modes 5 (SetInterrupt 9 INTERRUPT_BOTH))
            (initial_world {[ (4, reg_value IER2) := 0x00 ]} held_low_sense))
      4 IER2
  = reg (initial_world {[ (4, reg_value IER2) := 0x00 ]} held_low_sense) 4 IER2.
Proof.
  apply (other_devices_untouched esp32_modes 5 4 (SetInterrupt 9 INTERRUPT_BOTH)
           (initial_world {[ (4, reg_value IER2) := 0x00 ]} held_low_sense) IER2).
  lia.
Defined.

(** X18. The number of SPI transactions of each operation, whatever the
    pin and the state of the device: one for [XRA1405_digitalRead]; two
    for [XRA1405_digitalWrite], [XRA1405_setPullUp] and
    [XRA1405_clearInterrupts]; two for [XRA1405_pinMode], four when the
    mode is INPUT_PULLUP; six for [XRA1405_setInterrupt], eight when the
    mode is INTERRUPT_DISABLE. *)
Theorem transactions_per_operation (modes : PinModes) (cs : Z)
    (o : Operation) (w : World) :
  transactions (emitted (perform cs o) w)
  = match o with
    | PinMode _ mode => if mode =? INPUT_PULLUP then 4%nat else 2%nat
    | DigitalWrite _ _ => 2%nat
    | DigitalRead _ => 1%nat
    | SetPullUp _ _ => 2%nat
    | SetInterrupt _ t =>
        if bool_decide (t = INTERRUPT_DISABLE) then 8%nat else 6%nat
    | ClearInterrupts => 2%nat
    end.
Proof.
  destruct o as [pin mode|pin value|pin|pin enabled|pin t|]; unfold perform.
  - destruct (mode =? INPUT_PULLUP) eqn:Hmode;
      (erewrite emitted_after_frame;
       [|unfold bind, ret; rewrite pinMode_run, Hmode; reflexivity]);
      reflexivity.
  - erewrite emitted_after_frame;
      [|unfold bind, ret; rewrite digitalWrite_run; reflexivity].
    reflexivity.
  - erewrite emitted_after_frame;
      [|unfold bind, ret; rewrite digitalRead_run; reflexivity].
    reflexivity.
  - erewrite emitted_after_frame;
      [|unfold bind, ret; rewrite setPullUp_run; reflexivity].
    reflexivity.
  - erewrite emitted_after_frame;
      [|unfold bind, ret; rewrite setInterrupt_run; reflexivity].
    destruct (bool_decide (t = INTERRUPT_DISABLE)); reflexivity.
  - erewrite emitted_after_frame;
      [|unfold bind, ret; rewrite clearInterrupts_run; reflexivity].
    reflexivity.
Qed.

(** X19. Every non-empty sequence of operations on one device, started in
    any state of the bus, puts on the bus a sequence of whole frames,
    each begun with the fixed settings, and ends with the chip-select
    line released, no command pending in the device, and the bus clocked
    at 26000000; the pins the bus is attached to are as before. *)
Theorem programs_run_in_whole_frames (modes : PinModes) (cs : Z)
    (os : list Operation) (w : World) :
  os <> [] ->
  let w' := exec (perform_all cs os) w in
  Frames cs (emitted (perform_all cs os) w)
  /\ Forall (fun s => s = fixed_settings)
            (begin_settings (emitted (perform_all cs os) w))
  /\ selected w' = None /\ latched w' = None
  /\ bus_clock w' = 26000000
  /\ bus_pins w' = bus_pins w.
Proof.
  intros Hne w'.
  destruct (perform_all_exec cs os w Hne) as (rf & evs & Hrun & Hfr).
  rewrite (emitted_exec _ _ _ _ Hrun). unfold w'. rewrite Hrun.
  split; [exact Hfr|]. split; [apply (Frames_begin_settings cs), Hfr|].
  repeat split; reflexivity.
Qed.

Lemma programs_run_in_whole_frames_witness :
  let w := initial_world ∅ held_low_sense in
  let os := [PinMode 3 (@OUTPUT esp32_modes); DigitalWrite 3 HIGH; DigitalRead 3] in
  let w' := exec (@perform_all esp32_modes 5 os) w in
  Frames 5 (emitted (@perform_all esp32_modes 5 os) w)
  /\ Forall (fun s => s = fixed_settings)
            (begin_settings (emitted (@perform_all esp32_modes 5 os) w))
  /\ selected w' = None /\ latched w' = None
  /\ bus_clock w' = 26000000
  /\ bus_pins w' = bus_pins w.
Proof.
  apply (programs_run_in_whole_frames esp32_modes 5
           [PinMode 3 (@OUTPUT esp32_modes); DigitalWrite 3 HIGH; DigitalRead 3]
           (initial_world ∅ held_low_sense)).
  discriminate.
Defined.

(** ** Edge configuration called with the pin itself *)

(** X21. Given a pin 0 to 15 as it is, [configureEdgeInterrupt] works on
    the edge registers of the pin's bank (REIR1 and FEIR1 below 8, REIR2
    and FEIR2 from 8): it leaves the pin's rising-edge bit at 1 exactly
    for the modes rising and both, its falling-edge bit at 1 exactly for
    falling and both, and changes no other register of the device. *)
Theorem configureEdgeInterrupt_on_own_bank (cs pin : Z)
    (t : XRA1405_InterruptType) (w : World) :
  0 <= pin < 16 ->
  let w' := exec (configureEdgeInterrupt cs pin t) w in
  let RR := if pin <? 8 then REIR1 else REIR2 in
  let FR := if pin <? 8 then FEIR1 else FEIR2 in
  reg_bit w' cs RR (pin mod 8)
  = bool_decide (t = INTERRUPT_RISING) || bool_decide (t = INTERRUPT_BOTH)
  /\ reg_bit w' cs FR (pin mod 8)
     = bool_decide (t = INTERRUPT_FALLING) || bool_decide (t = INTERRUPT_BOTH)
  /\ (forall r, r <> RR -> r <> FR -> reg w' cs r = reg w cs r).
Proof.
  intros Hpin w' RR FR. pose proof (bit_index_range pin) as Hp.
  unfold reg_bit, w', exec, RR, FR. rewrite configureEdgeInterrupt_run.
  cbn [snd]. rewrite !reg_after_frame.
  destruct (pin <? 8); latches; rewrite !with_bit_u8;
    rewrite !testbit_with_bit, !Z.eqb_refl by lia;
    (repeat split; try reflexivity; intros r Hr1 Hr2;
     rewrite reg_after_frame, !latch_insert_reg, !decide_False by congruence;
     reflexivity).
Qed.

Lemma configureEdgeInterrupt_on_own_bank_witness :
  let w := initial_world ∅ held_low_sense in
  let w' := exec (configureEdgeInterrupt 5 8 INTERRUPT_BOTH) w in
  reg_bit w' 5 REIR2 (8 mod 8)
  = bool_decide (INTERRUPT_BOTH = INTERRUPT_RISING)
    || bool_decide (INTERRUPT_BOTH = INTERRUPT_BOTH)
  /\ reg_bit w' 5 FEIR2 (8 mod 8)
     = bool_decide (INTERRUPT_BOTH = INTERRUPT_FALLING)
       || bool_decide (INTERRUPT_BOTH = INTERRUPT_BOTH)
  /\ (forall r, r <> REIR2 -> r <> FEIR2 -> reg w' 5 r = reg w 5 r).
Proof.
  apply (configureEdgeInterrupt_on_own_bank 5 8 INTERRUPT_BOTH
           (initial_world ∅ held_low_sense)).
  lia.
Defined.
